(** * NeuralFinance: ledger store, reporting and export logic of [app_groq.py]

    A shallow embedding of the data-access layer, the reporting helpers and
    the export generators of [src/app_groq.py], with the properties the
    specification states about them.

    Conventions of the embedding.
    - A Python [str] is a Rocq [string] holding its UTF-8 encoding.  Equality,
      substring tests and ordering agree between the two views (UTF-8 keeps
      the code-point order under byte-wise comparison, which is also what
      SQLite's BINARY collation compares).
    - A Python [float] (and an SQLite REAL) is an exact rational [Q]; the
      rounding error of binary floating point is outside the model.
    - An exception raised by a library call (sqlite3, openpyxl) is an input
      of the function that performs the call: the caller of the model says
      whether that call raises, and the [try]/[except] of the source decides
      what happens next.
    - Streamlit notifications ([st.error], [st.warning], [st.info]) are
      appended to a log carried in the state. *)

From Stdlib Require Import QArith Qround Qabs.
From Stdlib Require Import Strings.String Strings.Ascii.
From stdpp Require Import base decidable list sorting strings pretty.

Local Open Scope string_scope.
Local Open Scope list_scope.

(** ** Python strings *)

Module PyStr.

(** [k in s] on Python strings. *)
Fixpoint contains (k s : string) : bool :=
  String.prefix k s ||
  match s with
  | EmptyString => false
  | String _ s' => contains k s'
  end.

(** Truthiness of a string: the empty string is falsy. *)
Definition truthy (s : string) : bool :=
  match s with
  | EmptyString => false
  | String _ _ => true
  end.

(** [sep.join(l)] *)
Fixpoint join (sep : string) (l : list string) : string :=
  match l with
  | [] => EmptyString
  | [x] => x
  | x :: l' => (x ++ sep ++ join sep l')%string
  end.

(** [s.rjust(w)]: the padding of the format specification [>w]. *)
Definition rjust (w : nat) (s : string) : string :=
  (String.concat EmptyString (replicate (w - String.length s) " ") ++ s)%string.

End PyStr.

(** The line feed of the source's string literals. *)
Definition nl : string := String (ascii_of_nat 10) EmptyString.

(** ** The persisted table [transacoes] *)

(** One row of the table [transacoes].  The column [created_at] is filled by
    SQLite and read by nothing in the program; it is left out. *)
Record db_row := DbRow {
  id : Z;
  data : string;
  categoria : string;
  tipo : string;
  valor : Q;
  descricao : string
}.

(** The database file: the rows of [transacoes] in insertion order, and the
    counter SQLite keeps for AUTOINCREMENT (the largest row id ever used). *)
Record database := Database {
  transacoes : list db_row;
  sqlite_sequence : Z
}.

(** What [init_database] leaves on a new file. *)
Definition init_database : database :=
  {| transacoes := []; sqlite_sequence := 0 |}.

(** Outcome of the sqlite3 calls made inside one [with get_db_connection()]
    block: they all return, or one of them raises with a message. *)
Inductive sqlite_outcome :=
| Returns
| Raises (e : string).

Definition max_rowid (t : list db_row) : Z :=
  foldr (fun r m => Z.max (id r) m) 0%Z t.

(** [INSERT INTO transacoes (data, categoria, tipo, valor, descricao)
    VALUES (?, ?, ?, ?, ?)] followed by [conn.commit()].  The new id is one
    more than the largest id that ever existed.  When a call raises, the
    connection is closed without a commit and the file is unchanged. *)
Definition sql_insert (o : sqlite_outcome) (d : database)
    (vals : string * string * string * Q * string) : string + database :=
  match o with
  | Raises e => inl e
  | Returns =>
      let '(da, ca, ti, va, de) := vals in
      let i := (1 + Z.max (sqlite_sequence d) (max_rowid (transacoes d)))%Z in
      inr {| transacoes := transacoes d ++ [DbRow i da ca ti va de];
             sqlite_sequence := i |}
  end.

(** [ORDER BY data DESC]: a stable sort, larger [data] first. *)
Definition data_desc (x y : db_row) : Prop := String.le (data y) (data x).

#[global] Instance data_desc_dec x y : Decision (data_desc x y).
Proof. unfold data_desc. apply _. Defined.

Definition order_by_data_desc (t : list db_row) : list db_row :=
  merge_sort data_desc t.

(** ** The in-memory transaction model (a pandas DataFrame) *)

Record transaction := Transaction {
  Data : string;
  Categoria : string;
  Tipo : string;
  Valor : Q;
  Descricao : string
}.

Record DataFrame := Frame {
  columns : list string;
  records : list transaction
}.

Definition std_columns : list string :=
  ["Data"; "Categoria"; "Tipo"; "Valor"; "Descrição"].

(** [pd.DataFrame(columns=[...])] *)
Definition empty_frame : DataFrame :=
  {| columns := std_columns; records := [] |}.

(** [df.empty]: some axis has length zero. *)
Definition empty (df : DataFrame) : bool :=
  match columns df, records df with
  | _ :: _, _ :: _ => false
  | _, _ => true
  end.

(** [len(df)] *)
Definition len (df : DataFrame) : nat := length (records df).

(** [pd.read_sql_query("SELECT data, categoria, tipo, valor, descricao FROM
    transacoes ORDER BY data DESC", conn)] *)
Definition select_row (r : db_row) : transaction :=
  Transaction (data r) (categoria r) (tipo r) (valor r) (descricao r).

Definition read_sql_query (o : sqlite_outcome) (d : database)
    : string + DataFrame :=
  match o with
  | Raises e => inl e
  | Returns =>
      inr {| columns := ["data"; "categoria"; "tipo"; "valor"; "descricao"];
             records := select_row <$> order_by_data_desc (transacoes d) |}
  end.

(** ** Application state *)

Inductive notification :=
| st_error (msg : string)
| st_warning (msg : string)
| st_info (msg : string).

Record world := World {
  db : database;
  ui : list notification
}.

Definition notify (n : notification) (w : world) : world :=
  {| db := db w; ui := ui w ++ [n] |}.

(** ** Ledger store *)

Definition load_transactions_from_db (o : sqlite_outcome) (w : world)
    : DataFrame * world :=
  match read_sql_query o (db w) with
  | inr df =>
      ({| columns := std_columns; records := records df |}, w)
  | inl e =>
      (empty_frame,
       notify (st_error ("Erro ao carregar dados: " ++ e)%string) w)
  end.

(** [now] is the value of [datetime.now().strftime("%Y-%m-%d %H:%M:%S")] at
    the call. *)
Definition save_transaction_to_db (o : sqlite_outcome) (now : string)
    (categoria tipo : string) (valor : Q) (descricao : string)
    (data : option string) (w : world) : bool * world :=
  let data := match data with None => now | Some d => d end in
  match sql_insert o (db w)
          (data, categoria, tipo, valor,
           if PyStr.truthy descricao then descricao else "Sem descrição") with
  | inr d' => (true, {| db := d'; ui := ui w |})
  | inl e =>
      (false, notify (st_error ("Erro ao salvar transação: " ++ e)%string) w)
  end.

Definition sql_delete_all (o : sqlite_outcome) (d : database)
    : string + database :=
  match o with
  | Raises e => inl e
  | Returns => inr {| transacoes := []; sqlite_sequence := sqlite_sequence d |}
  end.

Definition delete_all_transactions (o : sqlite_outcome) (w : world)
    : bool * world :=
  match sql_delete_all o (db w) with
  | inr d' => (true, {| db := d'; ui := ui w |})
  | inl e =>
      (false, notify (st_error ("Erro ao limpar dados: " ++ e)%string) w)
  end.

(** [pd.concat([a, b], ignore_index=True)] *)
Definition pd_concat (a b : DataFrame) : DataFrame :=
  {| columns := columns a ++ list_difference (columns b) (columns a);
     records := records a ++ records b |}.

(** ** Numbers and their formatting *)

Module PyNum.

#[global] Instance Qle_dec : RelDecision Qle.
Proof.
  intros a b. destruct (Qlt_le_dec b a) as [Hlt | Hle].
  - right. apply Qlt_not_le, Hlt.
  - left. exact Hle.
Defined.

#[global] Instance Qlt_dec : RelDecision Qlt.
Proof.
  intros a b. destruct (Qlt_le_dec a b) as [Hlt | Hle].
  - left. exact Hlt.
  - right. apply Qle_not_lt, Hle.
Defined.

(** [sum] of a column. *)
Definition Qsum (l : list Q) : Q := foldr Qplus 0%Q l.

(** Division raises [ZeroDivisionError] on a zero divisor. *)
Definition div (a b : Q) : option Q :=
  if Qeq_bool b 0%Q then None else Some (a / b)%Q.

(** Rounding to the nearest integer, ties to the even one. *)
Definition round_half_even (q : Q) : Z :=
  let f := Qfloor q in
  match (q - inject_Z f ?= 1 # 2)%Q with
  | Lt => f
  | Gt => (f + 1)%Z
  | Eq => if Z.even f then f else (f + 1)%Z
  end.

(** [.round(2)] of a numeric column. *)
Definition round2 (q : Q) : Q :=
  Qred (round_half_even (q * 100)%Q # 100).

(** Thousands separator of the format specification [,]. *)
Definition thousands (s : string) : string :=
  let l := list_ascii_of_string s in
  let n := length l in
  string_of_list_ascii
    (mjoin (imap (fun i c =>
       if bool_decide (0 < i)%nat && bool_decide ((n - i) mod 3 = 0)%nat
       then [","%char; c] else [c]) l)).

Definition zero_pad (w : nat) (s : string) : string :=
  (String.concat EmptyString (replicate (w - String.length s) "0") ++ s)%string.

(** The format specifications [.{prec}f] and [,.{prec}f]. *)
Definition format_f (grouping : bool) (prec : nat) (q : Q) : string :=
  let scale := (10 ^ Z.of_nat prec)%Z in
  let n := round_half_even (Qabs q * inject_Z scale)%Q in
  let int_part := pretty (n / scale)%Z in
  ((if bool_decide (q < 0)%Q then "-" else EmptyString)
   ++ (if grouping then thousands int_part else int_part)
   ++ match prec with
      | O => EmptyString
      | _ => "." ++ zero_pad prec (pretty (n mod scale)%Z)
      end)%string.

End PyNum.

Import PyNum.

(** ** Grouping and sorting a frame *)

(** [groupby(key)]: one group per distinct key, keys in ascending order, each
    with the rows that carry it, in their original order. *)
Definition groupby {A K : Type} `{EqDecision K} (R : relation K)
    `{!RelDecision R} (key : A -> K) (l : list A) : list (K * list A) :=
  (fun k => (k, filter (fun r => key r = k) l))
    <$> merge_sort R (remove_dups (key <$> l)).

(** Lexicographic order on the pairs of a two-column key. *)
Definition pair_le (a b : string * string) : Prop :=
  a.1 ≠ b.1 ∧ String.le a.1 b.1 ∨ a.1 = b.1 ∧ String.le a.2 b.2.

#[global] Instance pair_le_dec : RelDecision pair_le.
Proof. intros a b. unfold pair_le. apply _. Defined.

(** [df[df['Tipo'] == t]] *)
Definition of_tipo (t : string) (l : list transaction) : list transaction :=
  filter (fun r => Tipo r = t) l.

(** [sort_values('Data', ascending=False)] *)
Definition Data_desc (x y : transaction) : Prop := String.le (Data y) (Data x).

#[global] Instance Data_desc_dec : RelDecision Data_desc.
Proof. intros x y. unfold Data_desc. apply _. Defined.

Definition sort_values_Data_desc (l : list transaction) : list transaction :=
  merge_sort Data_desc l.

(** [sort_values(ascending=False)] of a series, and [nlargest(n, 'Valor')]. *)
Definition value_desc {K : Type} (x y : K * Q) : Prop := (y.2 <= x.2)%Q.

#[global] Instance value_desc_dec {K} : RelDecision (@value_desc K).
Proof. intros x y. unfold value_desc. apply _. Defined.

Definition Valor_desc (x y : transaction) : Prop := (Valor y <= Valor x)%Q.

#[global] Instance Valor_desc_dec : RelDecision Valor_desc.
Proof. intros x y. unfold Valor_desc. apply _. Defined.

Definition nlargest_Valor (n : nat) (l : list transaction) : list transaction :=
  take n (merge_sort Valor_desc l).

(** ** Ledger store, continued *)

(** [SELECT tipo, COUNT( * ), SUM(valor), AVG(valor) FROM transacoes GROUP BY
    tipo] *)
Definition sql_group_by_tipo (o : sqlite_outcome) (d : database)
    : string + list (string * Z * Q * Q) :=
  match o with
  | Raises e => inl e
  | Returns =>
      inr ((fun g : string * list db_row =>
              let total := Z.of_nat (length g.2) in
              let soma := Qsum (valor <$> g.2) in
              (g.1, total, soma, (soma / inject_Z total)%Q))
           <$> groupby String.le tipo (transacoes d))
  end.

Definition get_transaction_stats (o : sqlite_outcome) (w : world)
    : list (string * Z * Q * Q) :=
  match sql_group_by_tipo o (db w) with
  | inr rows => rows
  | inl e => []
  end.

(** ** Reporting *)

(** [now] is [datetime.now().strftime("%Y-%m-%d %H:%M:%S")]. *)
Definition add_transaction (o : sqlite_outcome) (now : string)
    (data : DataFrame) (categoria tipo : string) (valor : Q)
    (descricao : string) (w : world) : DataFrame * world :=
  let data_hora := now in
  match save_transaction_to_db o now categoria tipo valor descricao
          (Some data_hora) w with
  | (true, w') =>
      let new_row :=
        {| columns := std_columns;
           records := [Transaction data_hora categoria tipo valor
                         (if PyStr.truthy descricao then descricao
                          else "Sem descrição")] |} in
      (pd_concat data new_row, w')
  | (false, w') => (data, w')
  end.

Definition total_entrada (df : DataFrame) : Q :=
  Qsum (Valor <$> of_tipo "Entrada" (records df)).

Definition total_saida (df : DataFrame) : Q :=
  Qsum (Valor <$> of_tipo "Saída" (records df)).

(** [df[df['Tipo'] == 'Saída'].groupby('Categoria')['Valor'].sum()
      .sort_values(ascending=False)] *)
Definition gastos_categoria (df : DataFrame) : list (string * Q) :=
  merge_sort value_desc
    ((fun g : string * list transaction => (g.1, Qsum (Valor <$> g.2)))
     <$> groupby String.le Categoria (of_tipo "Saída" (records df))).

Definition no_transactions_msg : string :=
  "Nenhuma transação registrada ainda.".

Definition get_financial_summary (df : DataFrame) : string :=
  if empty df then no_transactions_msg
  else
    let entrada := total_entrada df in
    let saida := total_saida df in
    let saldo := (entrada - saida)%Q in
    let summary :=
      (nl ++ "📊 RESUMO FINANCEIRO:" ++ nl
       ++ "- Total de Entradas: R$ " ++ format_f true 2 entrada ++ nl
       ++ "- Total de Saídas: R$ " ++ format_f true 2 saida ++ nl
       ++ "- Saldo Atual: R$ " ++ format_f true 2 saldo ++ nl
       ++ "- Total de Transações: " ++ pretty (len df) ++ nl
       ++ nl
       ++ "💸 TOP 3 CATEGORIAS DE GASTOS:" ++ nl)%string in
    foldl (fun summary '(i, (cat, val)) =>
             (summary ++ pretty i ++ ". " ++ cat ++ ": R$ "
              ++ format_f true 2 val ++ nl)%string)
          summary
          (imap (fun i cv => (S i, cv)) (take 3 (gastos_categoria df))).

(** ** Export payloads *)

(** A value that returns or raises. *)
Inductive result (A : Type) :=
| Return (a : A)
| Raise (e : string).
Arguments Return {A} a.
Arguments Raise {A} e.

Inductive cell :=
| Text (s : string)
| Number (q : Q)
| Integer (n : Z).

(** A table as pandas hands it to a writer: the header line and the rows.
    For a grouped frame the index levels are the leading columns. *)
Record sheet := Sheet {
  header : list string;
  body : list (list cell)
}.

Inductive report_part :=
| Lit (s : string)
| to_string (t : sheet).

(** The content of the [BytesIO] an export returns.  How pandas and openpyxl
    lay a table out as bytes is theirs; the payload records which writer ran
    on which tables. *)
Inductive payload :=
| Bytes (b : string)
| Xlsx (sheets : list (string * sheet))
| CsvUtf8Sig (t : sheet)
| TxtUtf8Sig (report : list report_part).

(** What the openpyxl-backed writer does during one export: it works, the
    library is missing ([ImportError]), or a call raises something else. *)
Inductive excel_outcome :=
| Written
| ImportError
| OtherError (e : string).

Definition row_cells (r : transaction) : list cell :=
  [Text (Data r); Text (Categoria r); Text (Tipo r); Number (Valor r);
   Text (Descricao r)].

(** The frame of transactions as a table, index left out. *)
Definition frame_sheet (cols : list string) (l : list transaction) : sheet :=
  {| header := cols; body := row_cells <$> l |}.



Definition create_excel_export (x : excel_outcome) (df : DataFrame)
    : result (payload * string) * list notification :=
  if empty df then
    (Return (Bytes ("Data,Categoria,Tipo,Valor,Descricao" ++ nl)%string, "csv"),
     [st_warning "⚠️ Nenhuma transação para exportar!"])
  else
    match x with
    | Written =>
        let df_export := df in
        (Return (Xlsx [("Transações",
                        frame_sheet (columns df_export) (records df_export))],
                 "xlsx"),
         [st_info ("✅ Excel gerado com " ++ pretty (len df_export)
                   ++ " linhas")%string])
    | ImportError =>
        (Return (CsvUtf8Sig (frame_sheet (columns df) (records df)), "csv"),
         [st_warning "⚠️ openpyxl não instalado. Exportando como CSV."])
    | OtherError e =>
        (Return (CsvUtf8Sig (frame_sheet (columns df) (records df)), "csv"),
         [st_error ("❌ Erro ao gerar Excel: " ++ e)%string])
    end.

(** ** The budget export *)

(** The part of a pandas timestamp the program reads. *)
Record Timestamp := { year : Z; month : Z }.

(** [dt.to_period('M').astype(str)] *)
Definition period_M (ts : Timestamp) : string :=
  (zero_pad 4 (pretty (year ts)) ++ "-" ++ zero_pad 2 (pretty (month ts)))%string.

(** A reader of the timestamp format the program writes,
    [%Y-%m-%d %H:%M:%S]; anything else is not a date for it. *)
Definition digit (c : ascii) : option Z :=
  let n := Z.of_nat (nat_of_ascii c) in
  if bool_decide (48 ≤ n ≤ 57)%Z then Some (n - 48)%Z else None.

Definition number (l : list ascii) : option Z :=
  foldl (fun acc c => a ← acc; d ← digit c; Some (10 * a + d)%Z) (Some 0%Z) l.

Definition strptime_iso (s : string) : option Timestamp :=
  match list_ascii_of_string s with
  | [y1; y2; y3; y4; "-"; m1; m2; "-"; d1; d2; " ";
     h1; h2; ":"; i1; i2; ":"; s1; s2]%char =>
      y ← number [y1; y2; y3; y4];
      m ← number [m1; m2];
      d ← number [d1; d2];
      h ← number [h1; h2];
      i ← number [i1; i2];
      sec ← number [s1; s2];
      if bool_decide (1 ≤ m ≤ 12 ∧ 1 ≤ d ≤ 31 ∧ h ≤ 23 ∧ i ≤ 59 ∧ sec ≤ 59)%Z
      then Some {| year := y; month := m |} else None
  | _ => None
  end.

(** [(saldo/entrada_total*100) if entrada_total > 0 else 0] *)
Definition taxa_de_poupanca (saldo entrada_total : Q) : option Q :=
  if bool_decide (0 < entrada_total)%Q
  then q ← div saldo entrada_total; Some (q * 100)%Q
  else Some 0%Q.

(** [df.groupby(['Tipo', 'Categoria'])] with sum, mean and count of [Valor],
    rounded to two decimals. *)
Definition resumo_categoria (cols : list string) (l : list transaction) : sheet :=
  {| header := ["Tipo"; "Categoria"] ++ cols;
     body :=
       (fun g : string * string * list transaction =>
          let soma := Qsum (Valor <$> g.2) in
          let n := Z.of_nat (length g.2) in
          [Text g.1.1; Text g.1.2; Number (round2 soma);
           Number (round2 (soma / inject_Z n)); Integer n])
       <$> groupby pair_le (fun r => (Tipo r, Categoria r)) l |}.

(** A framed title of the text report. *)
Definition box (title : string) : string :=
  ("╔══════════════════════════════════════════════════════════════╗" ++ nl
   ++ title ++ nl
   ++ "╚══════════════════════════════════════════════════════════════╝" ++ nl)%string.

Section Budget.

(** [pd.to_datetime(column, errors='coerce')]: what the entry [s] of [column]
    becomes, [None] standing for [NaT].  The parser is pandas's. *)
Context (to_datetime : list string → string → option Timestamp).

(** The rows that survive [dropna(subset=['Data'])], with their month. *)
Definition with_month (l : list transaction) : list (string * transaction) :=
  omap (fun r => ts ← to_datetime (Data <$> l) (Data r); Some (period_M ts, r)) l.

(** [df_copy.groupby(['Mês', 'Tipo']).agg({'Valor': 'sum'}).round(2)] *)
Definition resumo_mensal (l : list transaction) : list (string * string * Q) :=
  (fun g : string * string * list (string * transaction) =>
     (g.1, round2 (Qsum ((fun mr => Valor mr.2) <$> g.2))))
  <$> groupby pair_le (fun mr => (mr.1, Tipo mr.2)) (with_month l).

Definition resumo_mensal_sheet (l : list transaction) : sheet :=
  {| header := ["Mês"; "Tipo"; "Valor"];
     body := (fun kv : string * string * Q =>
                [Text kv.1.1; Text kv.1.2; Number kv.2])
             <$> resumo_mensal l |}.

(** [now] is [datetime.now().strftime('%d/%m/%Y %H:%M')]. *)
Definition create_budget_spreadsheet (x : excel_outcome) (now : string)
    (df : DataFrame) : result (payload * string) :=
  if empty df then
    Return (Bytes ("Nenhuma transacao registrada ainda." ++ nl)%string, "csv")
  else
    match x with
    | Written =>
        let df_sorted := sort_values_Data_desc (records df) in
        let transacoes := [("Transações", frame_sheet (columns df) df_sorted)] in
        let categorias :=
          if bool_decide (0 < len df)%nat
          then [("Resumo Categorias",
                 resumo_categoria ["Total"; "Média"; "Quantidade"] (records df))]
          else [] in
        let mensal :=
          if bool_decide (0 < length (with_month (records df)))%nat
          then [("Resumo Mensal", resumo_mensal_sheet (records df))]
          else [] in
        let entrada_total := total_entrada df in
        let saida_total := total_saida df in
        let saldo := (entrada_total - saida_total)%Q in
        match taxa_de_poupanca saldo entrada_total with
        | None => Raise "ZeroDivisionError"
        | Some taxa =>
            let indicadores :=
              {| header := ["Indicador"; "Valor"];
                 body :=
                   [[Text "Total Entradas";
                     Text ("R$ " ++ format_f true 2 entrada_total)%string];
                    [Text "Total Saídas";
                     Text ("R$ " ++ format_f true 2 saida_total)%string];
                    [Text "Saldo";
                     Text ("R$ " ++ format_f true 2 saldo)%string];
                    [Text "Taxa de Poupança";
                     Text (format_f false 1 taxa ++ "%")%string];
                    [Text "Total Transações";
                     Integer (Z.of_nat (len df))]] |} in
            let saidas := of_tipo "Saída" (records df) in
            let top :=
              if bool_decide (0 < length saidas)%nat
              then [("Top 20 Gastos",
                     {| header := ["Data"; "Categoria"; "Valor"; "Descrição"];
                        body :=
                          (fun r => [Text (Data r); Text (Categoria r);
                                     Number (Valor r); Text (Descricao r)])
                          <$> nlargest_Valor (20 `min` length saidas) saidas |})]
              else [] in
            Return (Xlsx (transacoes ++ categorias ++ mensal
                          ++ [("Indicadores", indicadores)] ++ top),
                    "xlsx")
        end
    | ImportError =>
        let entrada_total := total_entrada df in
        let saida_total := total_saida df in
        let saldo := (entrada_total - saida_total)%Q in
        match taxa_de_poupanca saldo entrada_total with
        | None => Raise "ZeroDivisionError"
        | Some taxa =>
            let report :=
              [Lit (box ("║        RELATÓRIO FINANCEIRO NEURALFINANCE                   ║"
                         ++ nl
                         ++ "║        Data: " ++ now
                         ++ "                                    ║")
                    ++ nl
                    ++ box "║                  INDICADORES PRINCIPAIS                      ║"
                    ++ nl
                    ++ "💰 Total Entradas:     R$ "
                    ++ PyStr.rjust 15 (format_f true 2 entrada_total) ++ nl
                    ++ "💸 Total Saídas:       R$ "
                    ++ PyStr.rjust 15 (format_f true 2 saida_total) ++ nl
                    ++ "📊 Saldo Atual:        R$ "
                    ++ PyStr.rjust 15 (format_f true 2 saldo) ++ nl
                    ++ "📈 Taxa de Poupança:   "
                    ++ PyStr.rjust 14 (format_f false 1 taxa) ++ "%" ++ nl
                    ++ "🔢 Total Transações:   "
                    ++ PyStr.rjust 18 (pretty (len df)) ++ nl
                    ++ nl
                    ++ box "║                   RESUMO POR CATEGORIA                       ║"
                    ++ nl)%string] in
            let report :=
              if bool_decide (0 < len df)%nat
              then report
                   ++ [to_string
                         (resumo_categoria
                            ["Total (R$)"; "Média (R$)"; "Quantidade"]
                            (records df));
                       Lit (nl ++ nl)%string]
              else report in
            let report :=
              report
              ++ [Lit (box "║                  TODAS AS TRANSAÇÕES                         ║"
                       ++ nl)%string] in
            let report :=
              report
              ++ [to_string
                    (frame_sheet (columns df)
                       (sort_values_Data_desc (records df)))] in
            Return (TxtUtf8Sig report, "txt")
        end
    | OtherError e => Raise e
    end.

End Budget.

(** ** Export intent *)

Definition keywords : list string :=
  ["planilha"; "excel"; "exportar"; "download"; "baixar";
   "orçamento"; "relatório"; "análise detalhada"; "spreadsheet"].

Definition code (c : ascii) : nat := nat_of_ascii c.

(** [str.lower] on a string whose code points all lie below U+0100, read on
    its UTF-8 bytes: A-Z and the capital letters U+00C0-U+00DE (the sign
    U+00D7 apart) move up by 32, everything else stays.  [None] when the
    string has a code point outside that range. *)
Fixpoint lower_latin1 (s : string) : option string :=
  match s with
  | EmptyString => Some EmptyString
  | String c s' =>
      if bool_decide (code c < 128)%nat then
        String (if bool_decide (65 ≤ code c ≤ 90)%nat
                then ascii_of_nat (code c + 32) else c)
          <$> lower_latin1 s'
      else
        match s' with
        | String d s'' =>
            if bool_decide (128 ≤ code d < 192)%nat then
              if bool_decide (code c = 194)%nat then
                (fun t => String c (String d t)) <$> lower_latin1 s''
              else if bool_decide (code c = 195)%nat then
                (fun t =>
                   String c
                     (String (if bool_decide (code d ≤ 158 ∧ code d ≠ 151)%nat
                              then ascii_of_nat (code d + 32) else d) t))
                  <$> lower_latin1 s''
              else None
            else None
        | EmptyString => None
        end
  end.

Section Intent.

(** [str.lower] outside Latin-1, from Python's Unicode tables. *)
Context (unicode_lower : string → string).

Definition lower (s : string) : string :=
  match lower_latin1 s with
  | Some t => t
  | None => unicode_lower s
  end.

Definition parse_ai_request_for_export (user_message : string) : bool :=
  existsb (fun keyword => PyStr.contains keyword (lower user_message)) keywords.

End Intent.

(** ** Sequences of calls to the store *)

(** One call of [save_transaction_to_db]: its arguments, the clock at the
    call, and whether sqlite3 raises during it. *)
Record append_call := {
  call_outcome : sqlite_outcome;
  call_now : string;
  call_categoria : string;
  call_tipo : string;
  call_valor : Q;
  call_descricao : string;
  call_data : option string
}.

Definition append (c : append_call) (w : world) : bool * world :=
  save_transaction_to_db (call_outcome c) (call_now c) (call_categoria c)
    (call_tipo c) (call_valor c) (call_descricao c) (call_data c) w.

Fixpoint appends (cs : list append_call) (w : world) : list bool * world :=
  match cs with
  | [] => ([], w)
  | c :: cs' =>
      let '(ok, w1) := append c w in
      let '(oks, w2) := appends cs' w1 in
      (ok :: oks, w2)
  end.

Definition succeeds (c : append_call) : bool :=
  match call_outcome c with
  | Returns => true
  | Raises _ => false
  end.

(** The transaction a call asks the store to record. *)
Definition appended (c : append_call) : transaction :=
  {| Data := default (call_now c) (call_data c);
     Categoria := call_categoria c;
     Tipo := call_tipo c;
     Valor := call_valor c;
     Descricao := if PyStr.truthy (call_descricao c) then call_descricao c
                  else "Sem descrição" |}.

(** The state after [init_database] on a new file. *)
Definition initial_world : world := {| db := init_database; ui := [] |}.

(** ** Reading an export *)

(** The wording the program uses for an empty ledger, up to its first
    accented letter: [Nenhuma transação registrada ainda.] in the summary,
    [Nenhuma transacao registrada ainda.] in the budget export. *)
Definition no_data_label : string := "Nenhuma transa".

Definition labelled_no_data (p : payload) : bool :=
  match p with
  | Bytes b => PyStr.contains no_data_label b
  | _ => false
  end.

(** Number of bytes of a payload given as a literal. *)
Definition literal_size (p : payload) : nat :=
  match p with
  | Bytes b => String.length b
  | _ => 0
  end.

Definition format_tags : list string := ["xlsx"; "csv"; "txt"].

(** ** The specification's keyword set *)

(** The keyword set as the specification words it, for comparison with
    [keywords]. *)
Definition spec_keywords : list string :=
  ["spreadsheet"; "excel"; "export"; "download"; "budget"; "report";
   "detailed analysis"].

(** ** Sample inputs *)

Definition three_calls : list append_call :=
  [ {| call_outcome := Returns; call_now := "2024-03-01 09:00:00";
       call_categoria := "Salário"; call_tipo := "Entrada";
       call_valor := 100; call_descricao := "mensal"; call_data := None |};
    {| call_outcome := Returns; call_now := "2024-03-02 10:30:00";
       call_categoria := "Lazer"; call_tipo := "Saída";
       call_valor := 40; call_descricao := EmptyString;
       call_data := Some "2024-03-05 08:00:00" |};
    {| call_outcome := Returns; call_now := "2024-03-03 11:00:00";
       call_categoria := "Moradia"; call_tipo := "Saída";
       call_valor := 12.5; call_descricao := "luz";
       call_data := Some "2024-02-27 18:45:10" |} ].

(** [pd.to_datetime] restricted to the program's own timestamp format,
    whatever the rest of the column holds. *)
Definition to_datetime_iso (column : list string) (s : string)
    : option Timestamp :=
  strptime_iso s.

Definition sample_model : DataFrame :=
  {| columns := std_columns;
     records :=
       [Transaction "2024-01-05 09:00:00" "Salário" "Entrada" 100 "mensal";
        Transaction "2024-02-02 10:30:00" "Lazer" "Saída" 40 "cinema";
        Transaction "sem data" "Moradia" "Saída" 12.5 "luz"] |}.

(** ** The interactive session *)

(** [st.session_state], as far as the handlers below read or write it, with
    the database behind it and the [st.success] banners shown so far. *)
Record app := App {
  session_data : DataFrame;
  show_entrada_modal : bool;
  show_saida_modal : bool;
  store : world;
  successes : list string
}.

(** What the user does in one run of the script.  Each handler that reaches
    the database carries the outcome of its sqlite3 calls and, where it
    stamps a row, the clock. *)
Inductive event :=
| SidebarSubmit (o : sqlite_outcome) (now : string) (categoria tipo : string)
    (valor : Q) (desc : string)
| ClearData (o : sqlite_outcome)
| ReloadFromDb (o : sqlite_outcome)
| NovaEntrada
| NovaSaida
| ConfirmEntrada (o : sqlite_outcome) (now : string) (categoria : string)
    (valor : Q) (desc : string)
| CancelEntrada
| ConfirmSaida (o : sqlite_outcome) (now : string) (categoria : string)
    (valor : Q) (desc : string)
| CancelSaida.

(** [if 'data' not in st.session_state: st.session_state.data =
    load_transactions_from_db()], with both modal flags off. *)
Definition startup (o : sqlite_outcome) (w : world) : app :=
  let '(df, w') := load_transactions_from_db o w in
  {| session_data := df; show_entrada_modal := false;
     show_saida_modal := false; store := w'; successes := [] |}.

Definition handle (e : event) (s : app) : app :=
  match e with
  | SidebarSubmit o now categoria tipo valor desc =>
      let '(df, w') :=
        add_transaction o now (session_data s) categoria tipo valor desc
          (store s) in
      {| session_data := df;
         show_entrada_modal := show_entrada_modal s;
         show_saida_modal := show_saida_modal s;
         store := w';
         successes := successes s ++ ["✅ Transação adicionada com sucesso!"] |}
  | ClearData o =>
      let '(ok, w') := delete_all_transactions o (store s) in
      if ok then
        {| session_data := empty_frame;
           show_entrada_modal := show_entrada_modal s;
           show_saida_modal := show_saida_modal s;
           store := w';
           successes := successes s
                        ++ ["✅ Todos os dados foram deletados do banco!"] |}
      else
        {| session_data := session_data s;
           show_entrada_modal := show_entrada_modal s;
           show_saida_modal := show_saida_modal s;
           store := w';
           successes := successes s |}
  | ReloadFromDb o =>
      let '(df, w') := load_transactions_from_db o (store s) in
      {| session_data := df;
         show_entrada_modal := show_entrada_modal s;
         show_saida_modal := show_saida_modal s;
         store := w';
         successes := successes s ++ ["✅ Dados recarregados!"] |}
  | NovaEntrada =>
      {| session_data := session_data s;
         show_entrada_modal := true;
         show_saida_modal := show_saida_modal s;
         store := store s;
         successes := successes s |}
  | NovaSaida =>
      {| session_data := session_data s;
         show_entrada_modal := show_entrada_modal s;
         show_saida_modal := true;
         store := store s;
         successes := successes s |}
  | ConfirmEntrada o now categoria valor desc =>
      if show_entrada_modal s then
        let '(df, w') :=
          add_transaction o now (session_data s) categoria "Entrada" valor desc
            (store s) in
        {| session_data := df;
           show_entrada_modal := false;
           show_saida_modal := show_saida_modal s;
           store := w';
           successes := successes s
                        ++ [("✅ Entrada de R$ " ++ format_f true 2 valor
                             ++ " adicionada!")%string] |}
      else s
  | CancelEntrada =>
      if show_entrada_modal s then
        {| session_data := session_data s;
           show_entrada_modal := false;
           show_saida_modal := show_saida_modal s;
           store := store s;
           successes := successes s |}
      else s
  | ConfirmSaida o now categoria valor desc =>
      if show_saida_modal s then
        let '(df, w') :=
          add_transaction o now (session_data s) categoria "Saída" valor desc
            (store s) in
        {| session_data := df;
           show_entrada_modal := show_entrada_modal s;
           show_saida_modal := false;
           store := w';
           successes := successes s
                        ++ [("✅ Saída de R$ " ++ format_f true 2 valor
                             ++ " adicionada!")%string] |}
      else s
  | CancelSaida =>
      if show_saida_modal s then
        {| session_data := session_data s;
           show_entrada_modal := show_entrada_modal s;
           show_saida_modal := false;
           store := store s;
           successes := successes s |}
      else s
  end.

Definition run (events : list event) (s : app) : app :=
  foldl (fun s e => handle e s) s events.

(** The rows of the table as [load_transactions_from_db] would select them. *)
Definition stored (s : app) : list transaction :=
  select_row <$> transacoes (db (store s)).

(** The sqlite3 read of an event, if it makes one, returns. *)
Definition read_returns (e : event) : bool :=
  match e with
  | ReloadFromDb (Raises _) => false
  | _ => true
  end.

Definition table (s : app) : list db_row := transacoes (db (store s)).

(** Ids are pairwise different and none exceeds the AUTOINCREMENT counter. *)
Definition ids_bounded (s : app) : Prop :=
  NoDup (id <$> table s)
  ∧ Forall (fun r => (id r ≤ sqlite_sequence (db (store s)))%Z) (table s).

(** A session in which a write and a read fail. *)
Definition sample_events : list event :=
  [ SidebarSubmit Returns "2024-03-01 09:00:00" "Salário" "Entrada" 100 "mensal";
    NovaSaida;
    ConfirmSaida (Raises "database is locked") "2024-03-02 10:30:00" "Lazer"
      40 "cinema";
    NovaSaida;
    ConfirmSaida Returns "2024-03-02 10:31:00" "Lazer" 40 EmptyString;
    ReloadFromDb Returns;
    ClearData (Raises "disk I/O error");
    SidebarSubmit Returns "2024-03-03 08:00:00" "Moradia" "Saída" 12.5 "luz" ].


(** ** Download buttons *)

Record download := Download {
  label : string;
  file_data : payload;
  file_name : string;
  mime : string
}.

(** A plotly figure: the pie of [px.pie(frame, values=, names=, title=)]. *)
Record figure := Pie {
  fig_title : string;
  fig_names : list string;
  fig_values : list Q
}.

(** What a block of the script puts on the page, in order. *)
Inductive ui_output :=
| show (n : notification)
| st_markdown (s : string)
| st_caption (s : string)
| st_success (s : string)
| st_metric (label value : string) (delta : option string)
| st_plotly_chart (fig : figure)
| st_dataframe (t : sheet)
| st_download_button (d : download).

Definition xlsx_mime : string :=
  "application/vnd.openxmlformats-officedocument.spreadsheetml.sheet".

(** [s.upper()] on the ASCII letters. *)
Fixpoint upper (s : string) : string :=
  match s with
  | EmptyString => EmptyString
  | String c s' =>
      String (if bool_decide (97 ≤ code c ≤ 122)%nat
              then ascii_of_nat (code c - 32) else c)
        (upper s')
  end.

(** The buttons among the outputs. *)
Definition downloads (out : list ui_output) : list download :=
  omap (fun u => match u with st_download_button d => Some d | _ => None end) out.

(** The file extension and the MIME type of a button are those of the
    writer that produced its payload. *)
Definition named_as_it_is (d : download) : Prop :=
  match file_data d with
  | Xlsx _ => (∃ stem, file_name d = (stem ++ ".xlsx")%string) ∧ mime d = xlsx_mime
  | CsvUtf8Sig _ => (∃ stem, file_name d = (stem ++ ".csv")%string) ∧ mime d = "text/csv"
  | TxtUtf8Sig _ => (∃ stem, file_name d = (stem ++ ".txt")%string) ∧ mime d = "text/plain"
  | Bytes _ => False
  end.

(** An amount in whole cents. *)
Definition whole_cents (q : Q) : Prop := ∃ z : Z, (q == z # 100)%Q.

(** ** The type of the amount column *)

(** The dtype pandas gives the column [Valor].  A frame read from a table
    with rows has [float64].  A frame without rows, from
    [pd.DataFrame(columns=...)] or from a read of the empty table, has
    [object], and [pd.concat] of an [object] column with a [float64] one is
    [object]: the model [add_transaction] grows from an empty frame stays
    [object] until it is read from the store again.  Selection, [sum],
    comparison, formatting and sorting by [Data] work alike on both;
    [.round(2)] and [nlargest] do not. *)
Inductive dtype := float64 | object.

#[global] Instance dtype_eq_dec : EqDecision dtype.
Proof. solve_decision. Defined.

(** [.round(2)] on a column of a frame: a column that is not numeric is
    left as it is. *)
Definition round_column (d : dtype) (q : Q) : Q :=
  match d with
  | float64 => round2 q
  | object => q
  end.

(** [df.groupby(['Tipo', 'Categoria'])] with sum, mean and count of [Valor],
    then [.round(2)].  Sum and mean of an [object] column are [object]
    columns; the count is an integer column. *)
Definition resumo_categoria_typed (d : dtype) (cols : list string)
    (l : list transaction) : sheet :=
  {| header := ["Tipo"; "Categoria"] ++ cols;
     body :=
       (fun g : string * string * list transaction =>
          let soma := Qsum (Valor <$> g.2) in
          let n := Z.of_nat (length g.2) in
          [Text g.1.1; Text g.1.2; Number (round_column d soma);
           Number (round_column d (soma / inject_Z n)); Integer n])
       <$> groupby pair_le (fun r => (Tipo r, Categoria r)) l |}.

(** [nlargest(n, 'Valor')], [keep='first']: the rows by amount, largest
    first, rows of equal amount in the order of the frame, and the first [n]
    of them.  On an [object] column pandas raises. *)
Fixpoint insert_Valor_desc (x : transaction) (l : list transaction)
    : list transaction :=
  match l with
  | [] => [x]
  | y :: l' =>
      if decide (Valor y <= Valor x)%Q then x :: y :: l'
      else y :: insert_Valor_desc x l'
  end.

Definition sort_Valor_desc (l : list transaction) : list transaction :=
  foldr insert_Valor_desc [] l.

Definition nlargest_TypeError : string :=
  "TypeError: Column 'Valor' has dtype object, cannot use method 'nlargest' with this dtype".

Definition nlargest (d : dtype) (n : nat) (l : list transaction)
    : result (list transaction) :=
  match d with
  | object => Raise nlargest_TypeError
  | float64 => Return (take n (sort_Valor_desc l))
  end.

Section BudgetTyped.

Context (to_datetime : list string → string → option Timestamp).

(** [df_copy.groupby(['Mês', 'Tipo']).agg({'Valor': 'sum'}).round(2)] *)
Definition resumo_mensal_typed (d : dtype) (l : list transaction)
    : list (string * string * Q) :=
  (fun g : string * string * list (string * transaction) =>
     (g.1, round_column d (Qsum ((fun mr => Valor mr.2) <$> g.2))))
  <$> groupby pair_le (fun mr => (mr.1, Tipo mr.2)) (with_month to_datetime l).

Definition resumo_mensal_sheet_typed (d : dtype) (l : list transaction) : sheet :=
  {| header := ["Mês"; "Tipo"; "Valor"];
     body := (fun kv : string * string * Q =>
                [Text kv.1.1; Text kv.1.2; Number kv.2])
             <$> resumo_mensal_typed d l |}.

(** [create_budget_spreadsheet], lines 469-568, on a frame whose amount
    column has dtype [d].  An exception of a sheet is raised inside the
    [with] block of the writer and only [ImportError] is caught.  [now] is
    [datetime.now().strftime('%d/%m/%Y %H:%M')]. *)
Definition create_budget_spreadsheet_typed (d : dtype) (x : excel_outcome)
    (now : string) (df : DataFrame) : result (payload * string) :=
  if empty df then
    Return (Bytes ("Nenhuma transacao registrada ainda." ++ nl)%string, "csv")
  else
    match x with
    | Written =>
        let df_sorted := sort_values_Data_desc (records df) in
        let transacoes := [("Transações", frame_sheet (columns df) df_sorted)] in
        let categorias :=
          if bool_decide (0 < len df)%nat
          then [("Resumo Categorias",
                 resumo_categoria_typed d ["Total"; "Média"; "Quantidade"]
                   (records df))]
          else [] in
        let mensal :=
          if bool_decide (0 < length (with_month to_datetime (records df)))%nat
          then [("Resumo Mensal", resumo_mensal_sheet_typed d (records df))]
          else [] in
        let entrada_total := total_entrada df in
        let saida_total := total_saida df in
        let saldo := (entrada_total - saida_total)%Q in
        match taxa_de_poupanca saldo entrada_total with
        | None => Raise "ZeroDivisionError"
        | Some taxa =>
            let indicadores :=
              {| header := ["Indicador"; "Valor"];
                 body :=
                   [[Text "Total Entradas";
                     Text ("R$ " ++ format_f true 2 entrada_total)%string];
                    [Text "Total Saídas";
                     Text ("R$ " ++ format_f true 2 saida_total)%string];
                    [Text "Saldo";
                     Text ("R$ " ++ format_f true 2 saldo)%string];
                    [Text "Taxa de Poupança";
                     Text (format_f false 1 taxa ++ "%")%string];
                    [Text "Total Transações";
                     Integer (Z.of_nat (len df))]] |} in
            let saidas := of_tipo "Saída" (records df) in
            let top : result (list (string * sheet)) :=
              if bool_decide (0 < length saidas)%nat
              then match nlargest d (20 `min` length saidas) saidas with
                   | Raise e => Raise e
                   | Return top_gastos =>
                       Return
                         [("Top 20 Gastos",
                           {| header := ["Data"; "Categoria"; "Valor"; "Descrição"];
                              body :=
                                (fun r => [Text (Data r); Text (Categoria r);
                                           Number (Valor r); Text (Descricao r)])
                                <$> top_gastos |})]
                   end
              else Return [] in
            match top with
            | Raise e => Raise e
            | Return top =>
                Return (Xlsx (transacoes ++ categorias ++ mensal
                              ++ [("Indicadores", indicadores)] ++ top),
                        "xlsx")
            end
        end
    | ImportError =>
        let entrada_total := total_entrada df in
        let saida_total := total_saida df in
        let saldo := (entrada_total - saida_total)%Q in
        match taxa_de_poupanca saldo entrada_total with
        | None => Raise "ZeroDivisionError"
        | Some taxa =>
            let report :=
              [Lit (box ("║        RELATÓRIO FINANCEIRO NEURALFINANCE                   ║"
                         ++ nl
                         ++ "║        Data: " ++ now
                         ++ "                                    ║")
                    ++ nl
                    ++ box "║                  INDICADORES PRINCIPAIS                      ║"
                    ++ nl
                    ++ "💰 Total Entradas:     R$ "
                    ++ PyStr.rjust 15 (format_f true 2 entrada_total) ++ nl
                    ++ "💸 Total Saídas:       R$ "
                    ++ PyStr.rjust 15 (format_f true 2 saida_total) ++ nl
                    ++ "📊 Saldo Atual:        R$ "
                    ++ PyStr.rjust 15 (format_f true 2 saldo) ++ nl
                    ++ "📈 Taxa de Poupança:   "
                    ++ PyStr.rjust 14 (format_f false 1 taxa) ++ "%" ++ nl
                    ++ "🔢 Total Transações:   "
                    ++ PyStr.rjust 18 (pretty (len df)) ++ nl
                    ++ nl
                    ++ box "║                   RESUMO POR CATEGORIA                       ║"
                    ++ nl)%string] in
            let report :=
              if bool_decide (0 < len df)%nat
              then report
                   ++ [to_string
                         (resumo_categoria_typed d
                            ["Total (R$)"; "Média (R$)"; "Quantidade"]
                            (records df));
                       Lit (nl ++ nl)%string]
              else report in
            let report :=
              report
              ++ [Lit (box "║                  TODAS AS TRANSAÇÕES                         ║"
                       ++ nl)%string] in
            let report :=
              report
              ++ [to_string
                    (frame_sheet (columns df)
                       (sort_values_Data_desc (records df)))] in
            Return (TxtUtf8Sig report, "txt")
        end
    | OtherError e => Raise e
    end.

End BudgetTyped.

(** ** The summary's ranking *)

(** The text of [get_financial_summary] before the loop over the top three,
    and the line the loop adds for the [i]-th entry. *)
Definition summary_head (df : DataFrame) : string :=
  (nl ++ "📊 RESUMO FINANCEIRO:" ++ nl
   ++ "- Total de Entradas: R$ " ++ format_f true 2 (total_entrada df) ++ nl
   ++ "- Total de Saídas: R$ " ++ format_f true 2 (total_saida df) ++ nl
   ++ "- Saldo Atual: R$ "
   ++ format_f true 2 (total_entrada df - total_saida df)%Q ++ nl
   ++ "- Total de Transações: " ++ pretty (len df) ++ nl
   ++ nl
   ++ "💸 TOP 3 CATEGORIAS DE GASTOS:" ++ nl)%string.

Definition summary_line (i : nat) (cv : string * Q) : string :=
  (pretty i ++ ". " ++ cv.1 ++ ": R$ " ++ format_f true 2 cv.2 ++ nl)%string.

Fixpoint summary_lines (i : nat) (l : list (string * Q)) : string :=
  match l with
  | [] => EmptyString
  | cv :: l' => (summary_line i cv ++ summary_lines (S i) l')%string
  end.

(** A ranking of the expense categories: each category of an expense once,
    with the sum of its expenses, the larger sum first. *)
Definition ranks_gastos (df : DataFrame) (ranking : list (string * Q)) : Prop :=
  let saidas := of_tipo "Saída" (records df) in
  NoDup ranking.*1
  ∧ (∀ c v, (c, v) ∈ ranking ↔
       c ∈ Categoria <$> saidas
       ∧ v = Qsum (Valor <$> filter (fun r => Categoria r = c) saidas))
  ∧ StronglySorted value_desc ranking.

(** No two categories of the ranking have the same sum. *)
Definition no_ties (ranking : list (string * Q)) : Prop :=
  ∀ c1 v1 c2 v2,
    (c1, v1) ∈ ranking → (c2, v2) ∈ ranking → (v1 == v2)%Q → c1 = c2.

(** ** The dashboard and the chat's export offer *)

(** [create_timeline_chart], lines 602-621: a pie of the expenses by
    category. *)
Definition create_timeline_chart (df : DataFrame) : figure :=
  let df_gastos := of_tipo "Saída" (records df) in
  {| fig_title := "💰 Distribuição de Gastos";
     fig_names := Categoria <$> df_gastos;
     fig_values := Valor <$> df_gastos |}.

(** What plotly does with the figure is an input. *)
Inductive plotly_outcome :=
| Drawn
| PlotError (e : string).

(** [create_expenses_chart] is called at line 828 and defined nowhere. *)
Definition create_expenses_chart_NameError : string :=
  "NameError: name 'create_expenses_chart' is not defined".

(** The dashboard, lines 804-886: metrics, charts, the table and the three
    export buttons.  [d] is the dtype of the amount column; [stamp1],
    [stamp2], [stamp3] are the values of
    [datetime.now().strftime('%Y%m%d_%H%M%S')] at the three buttons, [now]
    the clock of the budget report.  The second component is the exception
    that ended the block, and with it the run of the script, if one did. *)
Definition dashboard
    (d : dtype) (to_datetime : list string → string → option Timestamp)
    (plot : plotly_outcome) (x x_b : excel_outcome)
    (stamp1 stamp2 stamp3 now : string)
    (df : DataFrame) : list ui_output * option string :=
  if empty df then
    ([show (st_info "💡 **Comece agora**: Adicione sua primeira transação na barra lateral para visualizar seus dados financeiros!")],
     None)
  else
    let entrada := total_entrada df in
    let saida := total_saida df in
    let saldo := (entrada - saida)%Q in
    let total_trans := len df in
    let out :=
      [st_metric "💰 Total Entradas" ("R$ " ++ format_f true 2 entrada)%string None;
       st_metric "💸 Total Saídas" ("R$ " ++ format_f true 2 saida)%string None] in
    match taxa_de_poupanca saldo entrada with
    | None => (out, Some "ZeroDivisionError")
    | Some delta =>
        let out :=
          out ++ [st_metric "📊 Saldo Atual"
                    ("R$ " ++ format_f true 2 saldo)%string
                    (Some (format_f false 1 delta ++ "%")%string);
                  st_metric "📈 Transações" (pretty total_trans) None;
                  st_markdown "---"] in
        match plot with
        | PlotError e => (out, Some e)
        | Drawn =>
            let out := out ++ [st_plotly_chart (create_timeline_chart df)] in
            if negb (empty {| columns := columns df;
                              records := of_tipo "Saída" (records df) |})
            then (out, Some create_expenses_chart_NameError)
            else
              let out :=
                out ++ [show (st_info "📊 Adicione gastos para ver a distribuição");
                        st_dataframe
                          (frame_sheet (columns df)
                             (sort_values_Data_desc (records df)));
                        st_markdown "**📥 Exportar Dados:**"] in
              let '(r, log) := create_excel_export x df in
              let out := out ++ (show <$> log) in
              match r with
              | Raise e => (out, Some e)
              | Return (excel_data, file_type) =>
                  let file_ext :=
                    if decide (file_type = "xlsx") then "xlsx" else "csv" in
                  let mime_type :=
                    if decide (file_type = "xlsx") then xlsx_mime
                    else "text/csv" in
                  let out :=
                    out ++ [st_download_button
                              {| label := ("📥 Transações (" ++ upper file_ext
                                           ++ ")")%string;
                                 file_data := excel_data;
                                 file_name := ("neuralfinance_transacoes_"
                                               ++ stamp1 ++ "." ++ file_ext)%string;
                                 mime := mime_type |}] in
                  let csv_data :=
                    CsvUtf8Sig (frame_sheet (columns df) (records df)) in
                  let out :=
                    out ++ [st_download_button
                              {| label := "📄 CSV Simples";
                                 file_data := csv_data;
                                 file_name := ("transacoes_" ++ stamp2
                                               ++ ".csv")%string;
                                 mime := "text/csv" |}] in
                  match create_budget_spreadsheet_typed to_datetime d x_b now df with
                  | Raise e => (out, Some e)
                  | Return (excel_budget, file_type_b) =>
                      let file_ext_b :=
                        if decide (file_type_b = "xlsx") then "xlsx"
                        else "txt" in
                      let mime_type_b :=
                        if decide (file_type_b = "xlsx") then xlsx_mime
                        else "text/plain" in
                      let out :=
                        out ++ [st_download_button
                                  {| label := ("💼 Orçamento ("
                                               ++ upper file_ext_b ++ ")")%string;
                                     file_data := excel_budget;
                                     file_name := ("neuralfinance_orcamento_"
                                                   ++ stamp3 ++ "."
                                                   ++ file_ext_b)%string;
                                     mime := mime_type_b |}] in
                      let out :=
                        if bool_decide (file_type = "csv")
                           || negb (bool_decide (file_type_b = "xlsx"))
                        then out ++ [st_caption "ℹ️ Para exportar em Excel (.xlsx), instale: `pip install openpyxl`"]
                        else out in
                      (out, None)
                  end
              end
        end
    end.

(** The export offer of the chat, lines 918-956, run after the reply
    [response] to the message [prompt]; the script comes to it only when the
    dashboard above has ended without an exception.  A variable that was
    never assigned is [None]; reading it raises [NameError]. *)
Definition export_offer
    (d : dtype) (to_datetime : list string → string → option Timestamp)
    (unicode_lower : string → string)
    (x1 x2 : excel_outcome) (stamp1 stamp2 now : string)
    (prompt response : string) (df : DataFrame)
    : list ui_output * option string :=
  if parse_ai_request_for_export unicode_lower prompt
     || PyStr.contains "EXPORTAR_PLANILHA" response
  then
    let out := [st_markdown "---"; st_markdown "### 📥 Download da Planilha"] in
    let '(r, log) := create_excel_export x1 df in
    let out := out ++ (show <$> log) in
    match r with
    | Raise e => (out, Some e)
    | Return (excel_simple, file_type1) =>
        let file_ext1 :=
          if decide (file_type1 = "xlsx") then "xlsx" else "csv" in
        let mime_type1 :=
          if decide (file_type1 = "xlsx") then xlsx_mime else "text/csv" in
        let out :=
          out ++ [st_download_button
                    {| label := ("📊 Baixar Transações (" ++ upper file_ext1
                                 ++ ")")%string;
                       file_data := excel_simple;
                       file_name := ("neuralfinance_transacoes_" ++ stamp1
                                     ++ "." ++ file_ext1)%string;
                       mime := mime_type1 |}] in
        let budget : result (list ui_output * option string) :=
          if negb (empty df) then
            match create_budget_spreadsheet_typed to_datetime d x2 now df with
            | Raise e => Raise e
            | Return (excel_budget, file_type2) =>
                let file_ext2 :=
                  if decide (file_type2 = "xlsx") then "xlsx" else "csv" in
                let mime_type2 :=
                  if decide (file_type2 = "xlsx") then xlsx_mime
                  else "text/csv" in
                Return
                  (out ++ [st_download_button
                             {| label := ("💼 Baixar Orçamento Completo ("
                                          ++ upper file_ext2 ++ ")")%string;
                                file_data := excel_budget;
                                file_name := ("neuralfinance_orcamento_"
                                              ++ stamp2 ++ "." ++ file_ext2)%string;
                                mime := mime_type2 |}],
                   Some file_type2)
            end
          else Return (out, None) in
        match budget with
        | Raise e => (out, Some e)
        | Return (out, file_type2) =>
            let note : result bool :=
              if bool_decide (file_type1 = "csv") then Return true
              else match file_type2 with
                   | None => Raise "NameError: name 'file_type2' is not defined"
                   | Some t => Return (bool_decide (t = "csv"))
                   end in
            match note with
            | Raise e => (out, Some e)
            | Return b =>
                let out :=
                  if b
                  then out ++ [show (st_info "ℹ️ **Nota**: Biblioteca Excel não instalada. Arquivos exportados em formato CSV. Para Excel, instale: `pip install openpyxl`")]
                  else out in
                (out ++ [st_success "✅ Planilhas prontas para download!"], None)
            end
        end
    end
  else ([], None).

(** A model with income only, read from a store with rows. *)
Definition income_model : DataFrame :=
  {| columns := std_columns;
     records :=
       [Transaction "2024-01-05 09:00:00" "Salário" "Entrada" 100 "mensal";
        Transaction "2024-02-10 18:45:00" "Outros" "Entrada" 12.5 "venda"] |}.

#[global] Instance Qeq_decision : RelDecision Qeq := Qeq_dec.

(** * Properties *)

(** ** Sorting and grouping *)

Section Lists.

Context {A K : Type} `{EqDecision K}.

Lemma elem_of_groupby (R : relation K) `{!RelDecision R} (key : A → K)
    (l : list A) (k : K) (g : list A) :
  (k, g) ∈ groupby R key l ↔ k ∈ key <$> l ∧ g = filter (fun r => key r = k) l.
Proof.
  unfold groupby. rewrite list_elem_of_fmap. split.
  - intros (k' & Heq & Hin). injection Heq as -> ->.
    rewrite merge_sort_Permutation, elem_of_remove_dups in Hin. done.
  - intros [Hin ->]. exists k. split; [done |].
    by rewrite merge_sort_Permutation, elem_of_remove_dups.
Qed.

Lemma groupby_keys (R : relation K) `{!RelDecision R} (key : A → K)
    (l : list A) :
  (groupby R key l).*1 = merge_sort R (remove_dups (key <$> l)).
Proof.
  unfold groupby. rewrite <- list_fmap_compose.
  rewrite <- (list_fmap_id (merge_sort _ _)) at 2. done.
Qed.

Lemma NoDup_groupby (R : relation K) `{!RelDecision R} (key : A → K)
    (l : list A) :
  NoDup (groupby R key l).*1.
Proof.
  rewrite groupby_keys, merge_sort_Permutation. apply NoDup_remove_dups.
Qed.

End Lists.

#[global] Instance data_desc_trans : Transitive data_desc.
Proof. intros x y z Hxy Hyz. unfold data_desc in *. by etrans. Qed.

#[global] Instance data_desc_total : Total data_desc.
Proof.
  intros x y. unfold data_desc.
  destruct (total String.le (data x) (data y)); auto.
Qed.

#[global] Instance Data_desc_trans : Transitive Data_desc.
Proof. intros x y z Hxy Hyz. unfold Data_desc in *. by etrans. Qed.

#[global] Instance Data_desc_total : Total Data_desc.
Proof.
  intros x y. unfold Data_desc.
  destruct (total String.le (Data x) (Data y)); auto.
Qed.

(** ** The store *)

Lemma max_rowid_ge (t : list db_row) (r : db_row) :
  r ∈ t → (id r ≤ max_rowid t)%Z.
Proof.
  induction t as [| r' t IH]; [by intros ?%elem_of_nil |].
  intros [-> | Hin]%elem_of_cons; simpl; [lia |].
  specialize (IH Hin). lia.
Qed.

Lemma append_succeeds (c : append_call) (w : world) :
  succeeds c = true →
  ∃ i, append c w =
       (true, {| db := {| transacoes := transacoes (db w)
                            ++ [DbRow i (Data (appended c)) (Categoria (appended c))
                                  (Tipo (appended c)) (Valor (appended c))
                                  (Descricao (appended c))];
                          sqlite_sequence := i |};
                 ui := ui w |})
       ∧ (max_rowid (transacoes (db w)) < i)%Z.
Proof.
  unfold succeeds, append, save_transaction_to_db, sql_insert, appended.
  destruct (call_outcome c); [| discriminate]. intros _.
  eexists. split.
  - destruct (call_data c); reflexivity.
  - lia.
Qed.

Lemma append_fails (c : append_call) (w : world) :
  succeeds c = false → ∃ w', append c w = (false, w') ∧ db w' = db w.
Proof.
  unfold succeeds, append, save_transaction_to_db, sql_insert.
  destruct (call_outcome c); [discriminate |]. intros _.
  eexists. split; reflexivity.
Qed.

Lemma appends_spec (cs : list append_call) (w : world) :
  (appends cs w).1 = succeeds <$> cs
  ∧ select_row <$> transacoes (db (appends cs w).2)
    = (select_row <$> transacoes (db w)) ++ (appended <$> filter succeeds cs)
  ∧ (NoDup (id <$> transacoes (db w)) →
     NoDup (id <$> transacoes (db (appends cs w).2))).
Proof.
  revert w. induction cs as [| c cs IH]; intros w.
  - simpl. by rewrite app_nil_r.
  - simpl. destruct (succeeds c) eqn:Hc.
    + destruct (append_succeeds c w Hc) as (i & -> & Hi).
      match goal with |- context [appends cs ?w1] =>
        destruct (IH w1) as (IH1 & IH2 & IH3);
        destruct (appends cs w1) as [oks w2] end.
      simpl in *. rewrite filter_cons, Hc. simpl.
      split; [by f_equal |]. split.
      * rewrite IH2, fmap_app. simpl. rewrite <- app_assoc.
        by destruct c.
      * intros Hnd. apply IH3. rewrite fmap_app. simpl.
        apply NoDup_app. split; [done |]. split; [| apply NoDup_singleton].
        intros j Hj ->%list_elem_of_singleton.
        apply list_elem_of_fmap in Hj as (r & -> & Hr).
        apply max_rowid_ge in Hr. lia.
    + destruct (append_fails c w Hc) as (w1 & -> & Hdb).
      destruct (IH w1) as (IH1 & IH2 & IH3).
      destruct (appends cs w1) as [oks w2].
      simpl in *. rewrite filter_cons, Hc. simpl. rewrite <- Hdb.
      split; [by f_equal |]. done.
Qed.

Lemma load_returns (w : world) :
  load_transactions_from_db Returns w
  = ({| columns := std_columns;
        records := select_row <$> order_by_data_desc (transacoes (db w)) |}, w).
Proof. reflexivity. Qed.

Lemma order_by_data_desc_sorted (t : list db_row) :
  StronglySorted Data_desc (select_row <$> order_by_data_desc t).
Proof.
  eapply StronglySorted_fmap with (R1 := data_desc); [by intros x y |].
  apply StronglySorted_merge_sort; apply _.
Qed.

(** C1: after any sequence of appends that all succeed on a new database,
    loading returns exactly the appended transactions (as a multiset), larger
    timestamps first, with the amounts that were passed, and the stored rows
    have pairwise different ids. *)
Theorem load_after_appends (cs : list append_call) :
  Forall (fun c => succeeds c = true) cs →
  let '(oks, w) := appends cs initial_world in
  let '(df, w') := load_transactions_from_db Returns w in
  Forall (fun ok => ok = true) oks
  ∧ columns df = std_columns
  ∧ records df ≡ₚ appended <$> cs
  ∧ StronglySorted (fun a b => String.le (Data b) (Data a)) (records df)
  ∧ Valor <$> records df ≡ₚ call_valor <$> cs
  ∧ NoDup (id <$> transacoes (db w))
  ∧ records df ≡ₚ select_row <$> transacoes (db w)
  ∧ w' = w.
Proof.
  intros Hok.
  destruct (appends_spec cs initial_world) as (H1 & H2 & H3).
  destruct (appends cs initial_world) as [oks w]. simpl in H1, H2, H3.
  rewrite load_returns.
  assert (Hall : filter succeeds cs = cs).
  { clear -Hok. induction Hok as [| c cs Hc _ IH]; [done |].
    by rewrite filter_cons, Hc, IH. }
  rewrite Hall in H2.
  assert (Hperm : select_row <$> order_by_data_desc (transacoes (db w))
                  ≡ₚ appended <$> cs).
  { unfold order_by_data_desc. by rewrite merge_sort_Permutation, H2. }
  split.
  { rewrite H1, Forall_fmap. exact Hok. }
  split; [done |]. split; [done |].
  split; [apply order_by_data_desc_sorted |].
  split.
  { simpl. rewrite Hperm, <- list_fmap_compose. done. }
  split; [apply H3; constructor |].
  split; [| done].
  simpl. unfold order_by_data_desc. by rewrite merge_sort_Permutation.
Qed.

Lemma load_after_appends_witness :
  Forall (fun c => succeeds c = true) three_calls
  ∧ let '(oks, w) := appends three_calls initial_world in
    let '(df, w') := load_transactions_from_db Returns w in
    Forall (fun ok => ok = true) oks
    ∧ columns df = std_columns
    ∧ records df ≡ₚ appended <$> three_calls
    ∧ StronglySorted (fun a b => String.le (Data b) (Data a)) (records df)
    ∧ Valor <$> records df ≡ₚ call_valor <$> three_calls
    ∧ NoDup (id <$> transacoes (db w))
    ∧ records df ≡ₚ select_row <$> transacoes (db w)
    ∧ w' = w.
Proof.
  assert (H : Forall (fun c => succeeds c = true) three_calls).
  { repeat constructor. }
  split; [exact H | exact (load_after_appends three_calls H)].
Defined.

Example load_three_calls :
  (load_transactions_from_db Returns (appends three_calls initial_world).2).1
  = {| columns := std_columns;
       records :=
         [Transaction "2024-03-05 08:00:00" "Lazer" "Saída" 40 "Sem descrição";
          Transaction "2024-03-01 09:00:00" "Salário" "Entrada" 100 "mensal";
          Transaction "2024-02-27 18:45:10" "Moradia" "Saída" 12.5 "luz"] |}.
Proof. vm_compute. reflexivity. Qed.

(** C9: a read that raises gives the empty frame with the standard columns
    from [load_transactions_from_db] and the empty list from
    [get_transaction_stats]; a read that returns gives, for each kind with at
    least one row and for no other, one entry with the number of its rows,
    the sum of their amounts and that sum divided by that number. *)
Theorem read_failure_degrades :
  (∀ e w, (load_transactions_from_db (Raises e) w).1
          = {| columns := std_columns; records := [] |})
  ∧ (∀ e w, get_transaction_stats (Raises e) w = [])
  ∧ (∀ w,
       let t := transacoes (db w) in
       let stats := get_transaction_stats Returns w in
       NoDup ((fun s => s.1.1.1) <$> stats)
       ∧ ∀ k total soma media,
           (k, total, soma, media) ∈ stats ↔
           k ∈ tipo <$> t
           ∧ total = Z.of_nat (length (filter (fun r => tipo r = k) t))
           ∧ soma = Qsum (valor <$> filter (fun r => tipo r = k) t)
           ∧ media = (soma / inject_Z total)%Q).
Proof.
  split; [done |]. split; [done |].
  intros w t stats. subst stats.
  unfold get_transaction_stats, sql_group_by_tipo. fold t. split.
  - rewrite <- list_fmap_compose. exact (NoDup_groupby String.le tipo t).
  - intros k total soma media. rewrite list_elem_of_fmap. split.
    + intros ([k' g] & Heq & [Hk ->]%elem_of_groupby).
      simpl in Heq. injection Heq as -> -> -> ->. done.
    + intros (Hk & -> & -> & ->).
      exists (k, filter (fun r => tipo r = k) t). split; [done |].
      by apply elem_of_groupby.
Qed.

(** C10: when the store write fails, [add_transaction] returns the
    in-memory model it was given, and the database is left as it was. *)
Theorem add_transaction_failed_write (o : sqlite_outcome) (now : string)
    (data : DataFrame) (categoria tipo : string) (valor : Q)
    (descricao : string) (w w' : world) :
  save_transaction_to_db o now categoria tipo valor descricao (Some now) w
  = (false, w') →
  add_transaction o now data categoria tipo valor descricao w = (data, w')
  ∧ db w' = db w.
Proof.
  intros Hsave. unfold add_transaction. rewrite Hsave. split; [done |].
  unfold save_transaction_to_db, sql_insert in Hsave.
  destruct o; [discriminate |]. by injection Hsave as <-.
Qed.

Lemma add_transaction_failed_write_witness :
  let w := {| db := init_database; ui := [] |} in
  let w' := notify (st_error "Erro ao salvar transação: database is locked") w in
  let data := {| columns := std_columns;
                 records := [Transaction "2024-03-01 09:00:00" "Salário"
                               "Entrada" 100 "mensal"] |} in
  save_transaction_to_db (Raises "database is locked") "2024-03-02 10:30:00"
    "Lazer" "Saída" 40 "cinema" (Some "2024-03-02 10:30:00") w = (false, w')
  ∧ add_transaction (Raises "database is locked") "2024-03-02 10:30:00" data
      "Lazer" "Saída" 40 "cinema" w = (data, w')
  ∧ db w' = db w.
Proof.
  intros w w' data.
  assert (H : save_transaction_to_db (Raises "database is locked")
                "2024-03-02 10:30:00" "Lazer" "Saída" 40 "cinema"
                (Some "2024-03-02 10:30:00") w = (false, w')).
  { reflexivity. }
  split; [exact H |].
  exact (add_transaction_failed_write _ _ data _ _ _ _ w w' H).
Defined.

(** Clearing the table and loading gives a frame without rows. *)
Lemma load_after_delete_all (w : world) :
  let '(ok, w') := delete_all_transactions Returns w in
  ok = true ∧ (load_transactions_from_db Returns w').1 = empty_frame.
Proof. split; reflexivity. Qed.

(** On a write that returns, the row is appended to the memory copy too. *)
Lemma add_transaction_written (now : string) (data : DataFrame)
    (categoria tipo : string) (valor : Q) (descricao : string) (w : world) :
  records (add_transaction Returns now data categoria tipo valor descricao w).1
  = records data
    ++ [Transaction now categoria tipo valor
          (if PyStr.truthy descricao then descricao else "Sem descrição")].
Proof. reflexivity. Qed.

(** ** Substring search *)

Lemma app_cons (c : ascii) (s t : string) :
  (String c s ++ t)%string = String c (s ++ t)%string.
Proof. reflexivity. Qed.

Lemma prefix_spec (k s : string) :
  String.prefix k s = true ↔ ∃ post, s = (k ++ post)%string.
Proof.
  revert s. induction k as [| c k IH]; intros s.
  - split; [intros _; by exists s |]. intros _. by destruct s.
  - destruct s as [| d s].
    { split; [done |]. intros [post Hp]. rewrite app_cons in Hp. discriminate. }
    simpl. destruct (ascii_dec c d) as [-> | Hne].
    + rewrite IH. split; intros [post Hp]; exists post.
      * rewrite app_cons. by f_equal.
      * rewrite app_cons in Hp. by injection Hp.
    + split; [done |]. intros [post Hp]. rewrite app_cons in Hp. congruence.
Qed.

Lemma contains_spec (k s : string) :
  PyStr.contains k s = true ↔ ∃ pre post, s = (pre ++ k ++ post)%string.
Proof.
  induction s as [| d s IH].
  - unfold PyStr.contains. rewrite orb_false_r, prefix_spec. split.
    + intros [post Hp]. by exists EmptyString, post.
    + intros ([| ? ?] & post & Hp); [by exists post |].
      rewrite app_cons in Hp. discriminate.
  - change (PyStr.contains k (String d s))
      with (String.prefix k (String d s) || PyStr.contains k s).
    rewrite orb_true_iff, prefix_spec, IH. split.
    + intros [[post Hp] | (pre & post & Hp)].
      * by exists EmptyString, post.
      * exists (String d pre), post. rewrite app_cons. by f_equal.
    + intros ([| c pre] & post & Hp).
      * left. by exists post.
      * right. exists pre, post. rewrite app_cons in Hp. by injection Hp.
Qed.

(** ** Reporting *)

(** C2: the summary of an empty model is the no-data message; the summary of
    one Entrada of 100 and one Saída of 40, in either order, reports total
    income 100.00, total expense 40.00, balance 60.00 and 2 transactions. *)
Theorem summary_examples :
  (∀ cols, get_financial_summary {| columns := cols; records := [] |}
           = "Nenhuma transação registrada ainda.")
  ∧ ∀ d1 c1 x1 d2 c2 x2 l,
      let income := Transaction d1 c1 "Entrada" 100 x1 in
      let expense := Transaction d2 c2 "Saída" 40 x2 in
      l ∈ [[income; expense]; [expense; income]] →
      let df := {| columns := std_columns; records := l |} in
      total_entrada df = 100%Q
      ∧ total_saida df = 40%Q
      ∧ (total_entrada df - total_saida df)%Q = 60%Q
      ∧ len df = 2%nat
      ∧ get_financial_summary df
        = (nl ++ "📊 RESUMO FINANCEIRO:" ++ nl
           ++ "- Total de Entradas: R$ 100.00" ++ nl
           ++ "- Total de Saídas: R$ 40.00" ++ nl
           ++ "- Saldo Atual: R$ 60.00" ++ nl
           ++ "- Total de Transações: 2" ++ nl
           ++ nl
           ++ "💸 TOP 3 CATEGORIAS DE GASTOS:" ++ nl
           ++ "1. " ++ c2 ++ ": R$ 40.00" ++ nl)%string.
Proof.
  split.
  { intros cols. unfold get_financial_summary, empty. simpl.
    by destruct cols. }
  intros d1 c1 x1 d2 c2 x2 l income expense Hl df.
  assert (Hof : of_tipo "Saída" l = [expense]).
  { apply elem_of_cons in Hl as [-> | Hl];
      [| apply list_elem_of_singleton in Hl as ->]; reflexivity. }
  assert (Hg : gastos_categoria df = [(c2, 40%Q)]).
  { unfold gastos_categoria. simpl records. rewrite Hof. unfold groupby.
    simpl. rewrite filter_cons_True by done. reflexivity. }
  unfold get_financial_summary. rewrite Hg.
  apply elem_of_cons in Hl as [-> | Hl];
    [| apply list_elem_of_singleton in Hl as ->];
    (repeat split; reflexivity).
Qed.

Lemma summary_examples_witness :
  let income := Transaction "2024-03-01 09:00:00" "Salário" "Entrada" 100 "mensal" in
  let expense := Transaction "2024-03-02 10:30:00" "Lazer" "Saída" 40 "cinema" in
  let df := {| columns := std_columns; records := [income; expense] |} in
  [income; expense] ∈ [[income; expense]; [expense; income]]
  ∧ total_entrada df = 100%Q
  ∧ get_financial_summary df
    = (nl ++ "📊 RESUMO FINANCEIRO:" ++ nl
       ++ "- Total de Entradas: R$ 100.00" ++ nl
       ++ "- Total de Saídas: R$ 40.00" ++ nl
       ++ "- Saldo Atual: R$ 60.00" ++ nl
       ++ "- Total de Transações: 2" ++ nl
       ++ nl
       ++ "💸 TOP 3 CATEGORIAS DE GASTOS:" ++ nl
       ++ "1. Lazer: R$ 40.00" ++ nl)%string.
Proof.
  intros income expense df.
  assert (H : [income; expense] ∈ [[income; expense]; [expense; income]]).
  { apply elem_of_cons. by left. }
  split; [exact H |].
  destruct (proj2 summary_examples _ _ _ _ _ _ _ H) as (H1 & _ & _ & _ & H5).
  split; [exact H1 | exact H5].
Defined.

(** ** Export intent *)

(** C6: the message asking for an orçamento is an export request, the
    message asking for the balance is not. *)
Theorem export_intent_examples (unicode_lower : string → string) :
  parse_ai_request_for_export unicode_lower "pode gerar um orçamento?" = true
  ∧ parse_ai_request_for_export unicode_lower "qual meu saldo?" = false.
Proof. split; reflexivity. Qed.

(** C7, as the specification words it, fails: the message [budget] contains
    a keyword of the specification's set and is not an export request. *)
Lemma export_intent_not_spec_keywords :
  parse_ai_request_for_export (fun s => s) "budget" = false
  ∧ "budget" ∈ spec_keywords
  ∧ PyStr.contains "budget" "budget" = true.
Proof.
  split; [reflexivity |]. split; [| reflexivity].
  unfold spec_keywords. rewrite !elem_of_cons. tauto.
Qed.

(** C7, amended: a message is an export request exactly when its lower-cased
    form contains one of the program's keywords. *)
Theorem export_intent_iff (unicode_lower : string → string) (m : string) :
  parse_ai_request_for_export unicode_lower m = true ↔
  ∃ k, k ∈ ["planilha"; "excel"; "exportar"; "download"; "baixar";
            "orçamento"; "relatório"; "análise detalhada"; "spreadsheet"]
       ∧ ∃ pre post, lower unicode_lower m = (pre ++ k ++ post)%string.
Proof.
  unfold parse_ai_request_for_export. fold keywords.
  rewrite existsb_exists. split.
  - intros (k & Hk%list_elem_of_In & Hc%contains_spec). eauto.
  - intros (k & Hk%list_elem_of_In & Hc%contains_spec). eauto.
Qed.

(** The lower-casing reaches the accented capitals of the keywords. *)
Example export_intent_upper (unicode_lower : string → string) :
  parse_ai_request_for_export unicode_lower "GERAR RELATÓRIO" = true
  ∧ parse_ai_request_for_export unicode_lower "Análise Detalhada, por favor" = true.
Proof. split; reflexivity. Qed.

(** ** Exports of an empty model *)

(** C3, as stated, fails for [create_excel_export]: on the empty model its
    payload is the bare header line of a CSV file and carries no no-data
    wording. *)
Lemma excel_export_empty_unlabelled :
  create_excel_export Written empty_frame
  = (Return (Bytes ("Data,Categoria,Tipo,Valor,Descricao" ++ nl)%string, "csv"),
     [st_warning "⚠️ Nenhuma transação para exportar!"])
  ∧ labelled_no_data (Bytes ("Data,Categoria,Tipo,Valor,Descricao" ++ nl)%string)
    = false.
Proof. split; reflexivity. Qed.

(** C3, amended: on a model without rows both exports return, whatever the
    spreadsheet library does, a payload of at least one byte with a tag among
    xlsx, csv and txt.  The payload of [create_budget_spreadsheet] is the
    no-data message.  The payload of [create_excel_export] is a CSV file made
    of its header line alone, tagged csv, and the no-data warning goes to the
    user interface. *)
Theorem exports_of_empty_model
    (to_datetime : list string → string → option Timestamp)
    (x : excel_outcome) (now : string) (cols : list string) :
  let df := {| columns := cols; records := [] |} in
  (∃ p tag,
     create_budget_spreadsheet to_datetime x now df = Return (p, tag)
     ∧ (0 < literal_size p)%nat
     ∧ tag ∈ format_tags
     ∧ labelled_no_data p = true
     ∧ p = Bytes ("Nenhuma transacao registrada ainda." ++ nl)%string)
  ∧ (∃ p tag,
       create_excel_export x df
       = (Return (p, tag), [st_warning "⚠️ Nenhuma transação para exportar!"])
       ∧ (0 < literal_size p)%nat
       ∧ tag ∈ format_tags
       ∧ tag = "csv"
       ∧ p = Bytes (PyStr.join ","
                      ["Data"; "Categoria"; "Tipo"; "Valor"; "Descricao"]
                    ++ nl)%string).
Proof.
  intros df.
  assert (He : empty df = true) by (unfold empty; simpl; by destruct cols).
  unfold create_budget_spreadsheet, create_excel_export. rewrite He.
  split; eexists _, _; (split; [reflexivity |]).
  - split; [simpl; lia |]. split; [| done].
    unfold format_tags. rewrite !elem_of_cons. tauto.
  - split; [simpl; lia |]. split; [| done].
    unfold format_tags. rewrite !elem_of_cons. tauto.
Qed.

(** ** The savings rate *)

Lemma taxa_de_poupanca_total (saldo entrada_total : Q) :
  taxa_de_poupanca saldo entrada_total
  = Some (if bool_decide (0 < entrada_total)%Q
          then (saldo / entrada_total * 100)%Q else 0%Q).
Proof.
  unfold taxa_de_poupanca, div. case_bool_decide as Hpos; [| done].
  destruct (Qeq_bool entrada_total 0) eqn:Hz; [| done].
  apply Qeq_bool_eq in Hz. rewrite Hz in Hpos. by apply Qlt_irrefl in Hpos.
Qed.

Lemma str_app_assoc (a b c : string) :
  ((a ++ b) ++ c)%string = (a ++ b ++ c)%string.
Proof.
  induction a as [| x a IH]; [done |]. rewrite !app_cons. by f_equal.
Qed.




(** ** The fallback exports *)






(** ** The monthly breakdown *)

Section Monthly.

Context (to_datetime : list string → string → option Timestamp).

Lemma omap_month_group (col : list string) (l : list transaction)
    (m k : string) :
  (fun mr : string * transaction => Valor mr.2)
    <$> filter (fun mr => (mr.1, Tipo mr.2) = (m, k))
          (omap (fun r => ts ← to_datetime col (Data r); Some (period_M ts, r)) l)
  = Valor
    <$> filter (fun r => period_M <$> to_datetime col (Data r) = Some m
                         ∧ Tipo r = k) l.
Proof.
  induction l as [| r l IH]; [done |].
  rewrite filter_cons. simpl omap.
  destruct (to_datetime col (Data r)) as [ts |] eqn:Hts; simpl.
  - rewrite filter_cons. simpl.
    repeat case_decide; simpl; try (f_equal; exact IH); exfalso.
    + match goal with H : _ = (m, k) |- _ => injection H as <- <- end.
      match goal with H : ¬ _ |- _ => apply H end. done.
    + match goal with H : _ ∧ _ |- _ => destruct H as [[= <-] <-] end.
      match goal with H : ¬ _ |- _ => apply H end. done.
  - exact IH.
Qed.

Lemma with_month_group (l : list transaction) (m k : string) :
  (fun mr : string * transaction => Valor mr.2)
    <$> filter (fun mr => (mr.1, Tipo mr.2) = (m, k)) (with_month to_datetime l)
  = Valor
    <$> filter (fun r => period_M <$> to_datetime (Data <$> l) (Data r) = Some m
                         ∧ Tipo r = k) l.
Proof. apply omap_month_group. Qed.


(** The sheet of the workbook is that breakdown. *)
Lemma budget_monthly_sheet (now : string) (df : DataFrame) :
  empty df = false →
  with_month to_datetime (records df) ≠ [] →
  ∃ sheets,
    create_budget_spreadsheet to_datetime Written now df
    = Return (Xlsx sheets, "xlsx")
    ∧ ("Resumo Mensal", resumo_mensal_sheet to_datetime (records df)) ∈ sheets.
Proof.
  intros He Hm. unfold create_budget_spreadsheet.
  rewrite He, taxa_de_poupanca_total.
  eexists. split; [reflexivity |].
  rewrite !elem_of_app. right. right. left.
  rewrite bool_decide_eq_true_2.
  - by apply list_elem_of_singleton.
  - destruct (with_month to_datetime (records df)); [done | simpl; lia].
Qed.

End Monthly.

(** ** The exports on a sample model *)



Example budget_of_sample_model :
  create_budget_spreadsheet to_datetime_iso Written "05/02/2024 10:00"
    sample_model
  = Return
      (Xlsx
         [("Transações",
           {| header := std_columns;
              body :=
                [[Text "sem data"; Text "Moradia"; Text "Saída"; Number 12.5;
                  Text "luz"];
                 [Text "2024-02-02 10:30:00"; Text "Lazer"; Text "Saída";
                  Number 40; Text "cinema"];
                 [Text "2024-01-05 09:00:00"; Text "Salário"; Text "Entrada";
                  Number 100; Text "mensal"]] |});
          ("Resumo Categorias",
           {| header := ["Tipo"; "Categoria"; "Total"; "Média"; "Quantidade"];
              body :=
                [[Text "Entrada"; Text "Salário"; Number 100; Number 100;
                  Integer 1];
                 [Text "Saída"; Text "Lazer"; Number 40; Number 40; Integer 1];
                 [Text "Saída"; Text "Moradia"; Number (25 # 2);
                  Number (25 # 2); Integer 1]] |});
          ("Resumo Mensal",
           {| header := ["Mês"; "Tipo"; "Valor"];
              body :=
                [[Text "2024-01"; Text "Entrada"; Number 100];
                 [Text "2024-02"; Text "Saída"; Number 40]] |});
          ("Indicadores",
           {| header := ["Indicador"; "Valor"];
              body :=
                [[Text "Total Entradas"; Text "R$ 100.00"];
                 [Text "Total Saídas"; Text "R$ 52.50"];
                 [Text "Saldo"; Text "R$ 47.50"];
                 [Text "Taxa de Poupança"; Text "47.5%"];
                 [Text "Total Transações"; Integer 3]] |});
          ("Top 20 Gastos",
           {| header := ["Data"; "Categoria"; "Valor"; "Descrição"];
              body :=
                [[Text "2024-02-02 10:30:00"; Text "Lazer"; Number 40;
                  Text "cinema"];
                 [Text "sem data"; Text "Moradia"; Number 12.5;
                  Text "luz"]] |})],
       "xlsx").
Proof. vm_compute. reflexivity. Qed.

(** * Further properties *)

(** ** The session keeps memory and store together *)

Lemma pd_concat_records (a b : DataFrame) :
  records (pd_concat a b) = records a ++ records b.
Proof. reflexivity. Qed.

Lemma add_transaction_cases (o : sqlite_outcome) (now : string)
    (df : DataFrame) (categoria tipo : string) (valor : Q) (desc : string)
    (w : world) :
  let row := Transaction now categoria tipo valor
               (if PyStr.truthy desc then desc else "Sem descrição") in
  let '(df', w') := add_transaction o now df categoria tipo valor desc w in
  (o = Returns
   ∧ records df' = records df ++ [row]
   ∧ (∃ i, transacoes (db w')
           = transacoes (db w)
             ++ [DbRow i now categoria tipo valor (Descricao row)]
           ∧ i = sqlite_sequence (db w')
           ∧ (sqlite_sequence (db w) < i)%Z
           ∧ (max_rowid (transacoes (db w)) < i)%Z)
   ∧ ui w' = ui w)
  ∨ ((∃ e, o = Raises e) ∧ df' = df ∧ db w' = db w
     ∧ length (ui w') = S (length (ui w))).
Proof.
  intros row. unfold add_transaction, save_transaction_to_db, sql_insert.
  destruct o as [| e]; simpl.
  - left. split; [done |]. split; [done |]. split; [| done].
    eexists. split; [reflexivity |]. split; [reflexivity |]. lia.
  - right. split; [by exists e |]. split; [done |]. split; [done |].
    rewrite length_app. simpl. lia.
Qed.

Lemma order_by_data_desc_perm (t : list db_row) :
  select_row <$> order_by_data_desc t ≡ₚ select_row <$> t.
Proof. unfold order_by_data_desc. by rewrite merge_sort_Permutation. Qed.

Lemma handle_keeps_memory_in_store (e : event) (s : app) :
  records (session_data s) ⊆+ stored s →
  records (session_data (handle e s)) ⊆+ stored (handle e s).
Proof.
  intros Hs. unfold stored in *.
  assert (Hadd : ∀ o now categoria tipo valor desc,
             let '(df', w') := add_transaction o now (session_data s) categoria
                                 tipo valor desc (store s) in
             records df' ⊆+ select_row <$> transacoes (db w')).
  { intros o now categoria tipo valor desc.
    pose proof (add_transaction_cases o now (session_data s) categoria tipo
                  valor desc (store s)) as Hc.
    destruct (add_transaction _ _ _ _ _ _ _ _) as [df' w'].
    destruct Hc as [(_ & -> & (i & -> & _) & _) | (_ & -> & -> & _)];
      [| done].
    rewrite fmap_app. by apply submseteq_app. }
  destruct e as [o now c t v d | o | o | | | o now c v d | | o now c v d |];
    simpl.
  - specialize (Hadd o now c t v d).
    by destruct (add_transaction _ _ _ _ _ _ _ _).
  - destruct o; simpl; [apply submseteq_nil_l | done].
  - destruct o; simpl; [| apply submseteq_nil_l].
    apply Permutation_submseteq, order_by_data_desc_perm.
  - done.
  - done.
  - destruct (show_entrada_modal s); [| done].
    specialize (Hadd o now c "Entrada" v d).
    by destruct (add_transaction _ _ _ _ _ _ _ _).
  - by destruct (show_entrada_modal s).
  - destruct (show_saida_modal s); [| done].
    specialize (Hadd o now c "Saída" v d).
    by destruct (add_transaction _ _ _ _ _ _ _ _).
  - by destruct (show_saida_modal s).
Qed.

(** X1: whatever the user does and whichever database calls fail, every row
    of the in-memory model is a row of the table (counted with
    multiplicity): the model never shows a transaction the store lacks. *)
Theorem memory_within_store (o : sqlite_outcome) (w : world)
    (events : list event) :
  let s := run events (startup o w) in
  records (session_data s) ⊆+ stored s.
Proof.
  simpl. unfold run.
  assert (H0 : records (session_data (startup o w)) ⊆+ stored (startup o w)).
  { unfold startup, stored. destruct o; simpl; [| apply submseteq_nil_l].
    apply Permutation_submseteq, order_by_data_desc_perm. }
  revert H0. generalize (startup o w) as s.
  induction events as [| e events IH]; intros s Hs; [done |].
  simpl. apply IH. by apply handle_keeps_memory_in_store.
Qed.

Lemma handle_keeps_sync (e : event) (s : app) :
  read_returns e = true →
  records (session_data s) ≡ₚ stored s →
  records (session_data (handle e s)) ≡ₚ stored (handle e s).
Proof.
  intros He Hs. unfold stored in *.
  assert (Hadd : ∀ o now categoria tipo valor desc,
             let '(df', w') := add_transaction o now (session_data s) categoria
                                 tipo valor desc (store s) in
             records df' ≡ₚ select_row <$> transacoes (db w')).
  { intros o now categoria tipo valor desc.
    pose proof (add_transaction_cases o now (session_data s) categoria tipo
                  valor desc (store s)) as Hc.
    destruct (add_transaction _ _ _ _ _ _ _ _) as [df' w'].
    destruct Hc as [(_ & -> & (i & -> & _) & _) | (_ & -> & -> & _)];
      [| done].
    rewrite fmap_app. by apply Permutation_app. }
  destruct e as [o now c t v d | o | o | | | o now c v d | | o now c v d |];
    simpl.
  - specialize (Hadd o now c t v d).
    by destruct (add_transaction _ _ _ _ _ _ _ _).
  - destruct o; simpl; done.
  - destruct o; [| discriminate He]. simpl.
    apply order_by_data_desc_perm.
  - done.
  - done.
  - destruct (show_entrada_modal s); [| done].
    specialize (Hadd o now c "Entrada" v d).
    by destruct (add_transaction _ _ _ _ _ _ _ _).
  - by destruct (show_entrada_modal s).
  - destruct (show_saida_modal s); [| done].
    specialize (Hadd o now c "Saída" v d).
    by destruct (add_transaction _ _ _ _ _ _ _ _).
  - by destruct (show_saida_modal s).
Qed.

(** X2: as long as no read of the database fails, the in-memory model and
    the table hold the same rows (as multisets) after every action, also
    after writes and clears that fail. *)
Theorem memory_equals_store (w : world) (events : list event) :
  Forall (fun e => read_returns e = true) events →
  let s := run events (startup Returns w) in
  records (session_data s) ≡ₚ stored s
  ∧ len (session_data s) = length (table s).
Proof.
  intros Hev. simpl.
  assert (H : records (session_data (run events (startup Returns w)))
              ≡ₚ stored (run events (startup Returns w))).
  { unfold run.
    assert (H0 : records (session_data (startup Returns w))
                 ≡ₚ stored (startup Returns w)).
    { apply order_by_data_desc_perm. }
    revert H0. generalize (startup Returns w) as s.
    induction Hev as [| e events He _ IH]; intros s Hs; [done |].
    simpl. apply IH. by apply handle_keeps_sync. }
  split; [exact H |].
  unfold len. rewrite H. unfold stored, table. by rewrite length_fmap.
Qed.

Lemma memory_equals_store_witness :
  Forall (fun e => read_returns e = true) sample_events
  ∧ let s := run sample_events (startup Returns initial_world) in
    records (session_data s) ≡ₚ stored s
    ∧ len (session_data s) = length (table s).
Proof.
  assert (H : Forall (fun e => read_returns e = true) sample_events).
  { repeat constructor. }
  split; [exact H | exact (memory_equals_store initial_world sample_events H)].
Defined.

(** A read that fails breaks the equality: the model is emptied while the
    table keeps its rows. *)
Example reload_failure_empties_memory :
  let s := run [SidebarSubmit Returns "2024-03-01 09:00:00" "Salário"
                  "Entrada" 100 "mensal";
                ReloadFromDb (Raises "database is locked")]
             (startup Returns initial_world) in
  records (session_data s) = [] ∧ length (table s) = 1%nat.
Proof. split; reflexivity. Qed.

(** ** Row ids *)

Lemma handle_ids (e : event) (s : app) :
  ids_bounded s →
  ids_bounded (handle e s)
  ∧ (sqlite_sequence (db (store s)) ≤ sqlite_sequence (db (store (handle e s))))%Z
  ∧ ∀ r, r ∈ table (handle e s) →
         r ∈ table s ∨ (sqlite_sequence (db (store s)) < id r)%Z.
Proof.
  intros [Hnd Hle]. unfold ids_bounded, table in *.
  assert (Hadd : ∀ o now categoria tipo valor desc,
    let '(df', w') := add_transaction o now (session_data s) categoria
                        tipo valor desc (store s) in
    (NoDup (id <$> transacoes (db w'))
     ∧ Forall (fun r => (id r ≤ sqlite_sequence (db w'))%Z) (transacoes (db w')))
    ∧ (sqlite_sequence (db (store s)) ≤ sqlite_sequence (db w'))%Z
    ∧ ∀ r, r ∈ transacoes (db w') →
           r ∈ transacoes (db (store s))
           ∨ (sqlite_sequence (db (store s)) < id r)%Z).
  { intros o now categoria tipo valor desc.
    pose proof (add_transaction_cases o now (session_data s) categoria tipo
                  valor desc (store s)) as Hc.
    destruct (add_transaction _ _ _ _ _ _ _ _) as [df' w'].
    destruct Hc as [(_ & _ & (i & -> & Hi & Hseq & Hmax) & _)
                   | (_ & _ & -> & _)].
    - rewrite <- Hi. split; [split |]; [| | split; [lia |]].
      + rewrite fmap_app. apply NoDup_app. split; [done |].
        split; [| apply NoDup_singleton].
        intros j Hj ->%list_elem_of_singleton.
        apply list_elem_of_fmap in Hj as (r & Heq & Hr).
        apply max_rowid_ge in Hr. simpl in Heq. lia.
      + apply Forall_app. split.
        * eapply Forall_impl; [exact Hle |]. simpl. intros r Hr. lia.
        * constructor; [simpl; lia | constructor].
      + intros r [Hr | ->%list_elem_of_singleton]%elem_of_app;
          [by left | right; simpl; lia].
    - split; [done |]. split; [lia |]. intros r Hr. by left. }
  destruct e as [o now c t v d | o | o | | | o now c v d | | o now c v d |];
    simpl.
  - specialize (Hadd o now c t v d).
    by destruct (add_transaction _ _ _ _ _ _ _ _).
  - destruct o; simpl.
    + split; [split; [constructor | constructor] |].
      split; [lia |]. by intros r ?%elem_of_nil.
    + split; [done |]. split; [lia |]. intros r Hr. by left.
  - destruct o; simpl; (split; [done |]; split; [lia |]; intros r Hr; by left).
  - split; [done |]. split; [lia |]. intros r Hr. by left.
  - split; [done |]. split; [lia |]. intros r Hr. by left.
  - destruct (show_entrada_modal s).
    + specialize (Hadd o now c "Entrada" v d).
      by destruct (add_transaction _ _ _ _ _ _ _ _).
    + split; [done |]. split; [lia |]. intros r Hr. by left.
  - destruct (show_entrada_modal s); simpl;
      (split; [done |]; split; [lia |]; intros r Hr; by left).
  - destruct (show_saida_modal s).
    + specialize (Hadd o now c "Saída" v d).
      by destruct (add_transaction _ _ _ _ _ _ _ _).
    + split; [done |]. split; [lia |]. intros r Hr. by left.
  - destruct (show_saida_modal s); simpl;
      (split; [done |]; split; [lia |]; intros r Hr; by left).
Qed.

Lemma run_ids (events : list event) (s : app) :
  ids_bounded s →
  ids_bounded (run events s)
  ∧ (sqlite_sequence (db (store s)) ≤ sqlite_sequence (db (store (run events s))))%Z
  ∧ ∀ r, r ∈ table (run events s) →
         r ∈ table s ∨ (sqlite_sequence (db (store s)) < id r)%Z.
Proof.
  revert s. induction events as [| e events IH]; intros s Hs.
  - split; [done |]. split; [simpl; lia |]. intros r Hr. by left.
  - destruct (handle_ids e s Hs) as (H1 & H2 & H3).
    destruct (IH (handle e s) H1) as (I1 & I2 & I3).
    change (run (e :: events) s) with (run events (handle e s)).
    split; [done |]. split; [lia |].
    intros r Hr. destruct (I3 r Hr) as [Hin | Hlt]; [| right; lia].
    destruct (H3 r Hin) as [? | ?]; [by left | right; lia].
Qed.

Lemma startup_ids (o : sqlite_outcome) : ids_bounded (startup o initial_world).
Proof. destruct o; (split; [constructor | constructor]). Qed.

(** X3: on a database created by the program, row ids are pairwise
    different at every moment, and an id is never given to a second row: a
    row found later under an id seen earlier is the same row, also when the
    table was cleared in between. *)
Theorem ids_never_reused (o : sqlite_outcome) (before after : list event) :
  let s1 := run before (startup o initial_world) in
  let s2 := run after s1 in
  NoDup (id <$> table s2)
  ∧ ∀ r1 r2, r1 ∈ table s1 → r2 ∈ table s2 → id r1 = id r2 → r1 = r2.
Proof.
  simpl.
  destruct (run_ids before _ (startup_ids o)) as ([Hnd1 Hle1] & _ & _).
  destruct (run_ids after (run before (startup o initial_world)))
    as ([Hnd2 _] & _ & Hnew); [done |].
  split; [exact Hnd2 |].
  intros r1 r2 Hr1 Hr2 Heq. destruct (Hnew r2 Hr2) as [Hold | Hlt].
  - apply list_elem_of_lookup in Hr1 as [i Hi].
    apply list_elem_of_lookup in Hold as [j Hj].
    assert (i = j) as ->; [| congruence].
    apply (NoDup_alt (id <$> table (run before (startup o initial_world))))
      with (x := id r1); [done | |].
    + by rewrite list_lookup_fmap, Hi.
    + by rewrite list_lookup_fmap, Hj, Heq.
  - rewrite Forall_forall in Hle1. specialize (Hle1 r1 Hr1). lia.
Qed.

Example id_after_clear :
  let s := run [SidebarSubmit Returns "2024-03-01 09:00:00" "Salário"
                  "Entrada" 100 "mensal";
                ClearData Returns;
                SidebarSubmit Returns "2024-03-02 09:00:00" "Lazer" "Saída"
                  40 "cinema"]
             (startup Returns initial_world) in
  id <$> table s = [2%Z].
Proof. reflexivity. Qed.

(** ** Success banners *)

(** X4: each of the three forms shows its success banner whenever it is
    submitted, also when the write failed; in that case the model and the
    table are unchanged and an error notification is logged next to the
    banner.  The modal forms close all the same. *)
Theorem banner_on_failed_write (s : app) (e : string)
    (now categoria tipo : string) (valor : Q) (desc : string) :
  let unchanged (s' : app) :=
    session_data s' = session_data s
    ∧ table s' = table s
    ∧ ui (store s')
      = ui (store s) ++ [st_error ("Erro ao salvar transação: " ++ e)%string] in
  (let s' := handle (SidebarSubmit (Raises e) now categoria tipo valor desc) s in
   successes s' = successes s ++ ["✅ Transação adicionada com sucesso!"]
   ∧ unchanged s')
  ∧ (show_entrada_modal s = true →
     let s' := handle (ConfirmEntrada (Raises e) now categoria valor desc) s in
     successes s'
     = successes s ++ [("✅ Entrada de R$ " ++ format_f true 2 valor
                        ++ " adicionada!")%string]
     ∧ show_entrada_modal s' = false
     ∧ unchanged s')
  ∧ (show_saida_modal s = true →
     let s' := handle (ConfirmSaida (Raises e) now categoria valor desc) s in
     successes s'
     = successes s ++ [("✅ Saída de R$ " ++ format_f true 2 valor
                        ++ " adicionada!")%string]
     ∧ show_saida_modal s' = false
     ∧ unchanged s').
Proof.
  intros unchanged. split; [done |].
  split; intros Hshown; simpl; rewrite Hshown; done.
Qed.

Lemma banner_on_failed_write_witness :
  let s := handle NovaSaida (startup Returns initial_world) in
  let s' := handle (ConfirmSaida (Raises "database is locked")
                      "2024-03-02 10:30:00" "Lazer" 40 "cinema") s in
  show_saida_modal s = true
  ∧ successes s' = ["✅ Saída de R$ 40.00 adicionada!"]
  ∧ show_saida_modal s' = false
  ∧ session_data s' = session_data s
  ∧ table s' = table s.
Proof.
  intros s s'.
  assert (H : show_saida_modal s = true) by reflexivity.
  split; [exact H |].
  destruct (proj2 (proj2 (banner_on_failed_write s "database is locked"
                            "2024-03-02 10:30:00" "Lazer" "Saída" 40 "cinema"))
              H) as (H1 & H2 & H3 & H4 & _).
  split; [exact H1 |]. split; [exact H2 |]. split; [exact H3 | exact H4].
Defined.

(** ** Sums of amounts *)

Lemma Qsum_app (l k : list Q) : (Qsum (l ++ k) == Qsum l + Qsum k)%Q.
Proof.
  induction l as [| x l IH]; simpl.
  - by rewrite Qplus_0_l.
  - rewrite IH. by rewrite Qplus_assoc.
Qed.

Lemma Qsum_Permutation (l k : list Q) : l ≡ₚ k → (Qsum l == Qsum k)%Q.
Proof.
  induction 1 as [| x l k _ IH | x y l | l k m _ IH1 _ IH2]; simpl.
  - reflexivity.
  - by rewrite IH.
  - rewrite !Qplus_assoc. by rewrite (Qplus_comm y x).
  - by rewrite IH1.
Qed.

Lemma of_tipo_app (t : string) (l k : list transaction) :
  of_tipo t (l ++ k) = of_tipo t l ++ of_tipo t k.
Proof. unfold of_tipo. apply filter_app. Qed.

(** ** Adding a transaction and the totals *)

(** X5: a transaction added with a successful write raises the total of its
    own kind by exactly its amount, leaves the other total alone, moves the
    balance by the amount (up for Entrada, down for Saída) and raises the
    number of transactions by one; with a failed write all four stay as
    they are. *)
Theorem add_transaction_totals (o : sqlite_outcome) (now : string)
    (df : DataFrame) (categoria tipo : string) (valor : Q) (desc : string)
    (w : world) :
  let df' := (add_transaction o now df categoria tipo valor desc w).1 in
  let added (t : string) : Q :=
    match o with
    | Returns => if decide (tipo = t) then valor else 0%Q
    | Raises _ => 0%Q
    end in
  (total_entrada df' == total_entrada df + added "Entrada")%Q
  ∧ (total_saida df' == total_saida df + added "Saída")%Q
  ∧ (total_entrada df' - total_saida df'
     == total_entrada df - total_saida df + added "Entrada" - added "Saída")%Q
  ∧ len df' = (len df + match o with Returns => 1 | Raises _ => 0 end)%nat.
Proof.
  intros df' added.
  assert (He : ∀ t, (Qsum (Valor <$> of_tipo t (records df'))
                     == Qsum (Valor <$> of_tipo t (records df)) + added t)%Q).
  { intros t. subst df' added. destruct o as [| e]; simpl.
    - rewrite of_tipo_app, fmap_app, Qsum_app. apply Qplus_inj_l.
      unfold of_tipo. rewrite filter_cons, filter_nil. simpl.
      destruct (decide (tipo = t)); simpl; [| done]. apply Qplus_0_r.
    - by rewrite Qplus_0_r. }
  assert (H1 := He "Entrada"). assert (H2 := He "Saída").
  fold (total_entrada df') (total_entrada df) in H1.
  fold (total_saida df') (total_saida df) in H2.
  split; [exact H1 |]. split; [exact H2 |]. split.
  - rewrite H1, H2. ring.
  - subst df'. unfold len. destruct o; simpl; [| lia].
    rewrite length_app. simpl. lia.
Qed.

(** ** Appends that fail among appends that succeed *)

Lemma appends_errors (cs : list append_call) (w : world) :
  length (ui (appends cs w).2)
  = (length (ui w) + length (filter (fun c => succeeds c = false) cs))%nat.
Proof.
  revert w. induction cs as [| c cs IH]; intros w; simpl; [lia |].
  rewrite filter_cons. destruct (succeeds c) eqn:Hc.
  - destruct (append_succeeds c w Hc) as (i & -> & _).
    match goal with |- context [appends cs ?w1] =>
      specialize (IH w1); destruct (appends cs w1) as [oks w2] end.
    simpl in *. exact IH.
  - unfold append, save_transaction_to_db, sql_insert, succeeds in *.
    destruct (call_outcome c) as [| e]; [discriminate |].
    match goal with |- context [appends cs ?w1] =>
      specialize (IH w1); destruct (appends cs w1) as [oks w2] end.
    simpl in *. rewrite IH, length_app. simpl. lia.
Qed.

(** X6: on any database and for any mix of appends that succeed and appends
    that fail, each call reports its own outcome, a load afterwards returns
    the rows that were there plus the transactions of the calls that
    succeeded, larger timestamps first, and each failed call has logged one
    error and left no row. *)
Theorem load_after_mixed_appends (cs : list append_call) (w : world) :
  let w' := (appends cs w).2 in
  let df := (load_transactions_from_db Returns w').1 in
  (appends cs w).1 = succeeds <$> cs
  ∧ records df
    ≡ₚ (select_row <$> transacoes (db w)) ++ (appended <$> filter succeeds cs)
  ∧ StronglySorted (fun a b => String.le (Data b) (Data a)) (records df)
  ∧ length (ui w')
    = (length (ui w) + length (filter (fun c => succeeds c = false) cs))%nat.
Proof.
  intros w' df. destruct (appends_spec cs w) as (H1 & H2 & _).
  split; [exact H1 |]. split; [| split].
  - subst df w'. rewrite load_returns. simpl.
    by rewrite order_by_data_desc_perm, H2.
  - subst df. rewrite load_returns. apply order_by_data_desc_sorted.
  - apply appends_errors.
Qed.

(** ** The sidebar statistics and the dashboard totals *)

Lemma select_of_tipo (k : string) (t : list db_row) :
  of_tipo k (select_row <$> t) = select_row <$> filter (fun r => tipo r = k) t.
Proof.
  unfold of_tipo. induction t as [| r t IH]; [done |].
  rewrite fmap_cons, !filter_cons. simpl.
  destruct (decide (tipo r = k)); simpl; by rewrite IH.
Qed.

(** X7: the per-kind statistics read from the database agree with the
    model loaded from it: for every kind listed, the count is the number of
    rows of that kind in the model and the sum is the total of their
    amounts; in particular the sums for Entrada and Saída are the
    dashboard's totals. *)
Theorem stats_agree_with_model (w : world) (k : string) (total : Z)
    (soma media : Q) :
  (k, total, soma, media) ∈ get_transaction_stats Returns w →
  let df := (load_transactions_from_db Returns w).1 in
  total = Z.of_nat (length (of_tipo k (records df)))
  ∧ (soma == Qsum (Valor <$> of_tipo k (records df)))%Q
  ∧ (k = "Entrada" → (soma == total_entrada df)%Q)
  ∧ (k = "Saída" → (soma == total_saida df)%Q).
Proof.
  intros Hin df.
  unfold get_transaction_stats, sql_group_by_tipo in Hin.
  apply list_elem_of_fmap in Hin as ([k' g] & Heq & [_ ->]%elem_of_groupby).
  simpl in Heq. injection Heq as Hk -> -> _. subst k'.
  assert (Hp : of_tipo k (records df)
               ≡ₚ select_row <$> filter (fun r => tipo r = k) (transacoes (db w))).
  { subst df. rewrite load_returns. simpl. rewrite <- select_of_tipo.
    unfold of_tipo. by rewrite order_by_data_desc_perm. }
  assert (Hs : (Qsum (valor <$> filter (fun r => tipo r = k) (transacoes (db w)))
                == Qsum (Valor <$> of_tipo k (records df)))%Q).
  { apply Qsum_Permutation. rewrite Hp, <- list_fmap_compose. done. }
  split; [| split; [exact Hs | split; intros ->; exact Hs]].
  by rewrite Hp, length_fmap.
Qed.

Lemma stats_agree_with_model_witness :
  let w := (appends three_calls initial_world).2 in
  ("Saída", 2%Z, 52.5%Q, (52.5 / 2)%Q) ∈ get_transaction_stats Returns w
  ∧ let df := (load_transactions_from_db Returns w).1 in
    2%Z = Z.of_nat (length (of_tipo "Saída" (records df)))
    ∧ (52.5 == total_saida df)%Q.
Proof.
  intros w.
  assert (H : ("Saída", 2%Z, 52.5%Q, (52.5 / 2)%Q)
              ∈ get_transaction_stats Returns w).
  { apply (list_elem_of_lookup_2 _ 1%nat). vm_compute. reflexivity. }
  split; [exact H |].
  destruct (stats_agree_with_model w _ _ _ _ H) as (H1 & _ & _ & H4).
  split; [exact H1 | exact (H4 eq_refl)].
Defined.

(** ** Rankings by amount *)

#[global] Instance value_desc_trans {K : Type} : Transitive (@value_desc K).
Proof. intros x y z Hxy Hyz. unfold value_desc in *. by apply Qle_trans with y.2. Qed.

#[global] Instance value_desc_total {K : Type} : Total (@value_desc K).
Proof.
  intros x y. unfold value_desc.
  destruct (Qlt_le_dec x.2 y.2) as [?%Qlt_le_weak | ?]; auto.
Qed.

#[global] Instance Valor_desc_trans : Transitive Valor_desc.
Proof. intros x y z Hxy Hyz. unfold Valor_desc in *. by apply Qle_trans with (Valor y). Qed.

#[global] Instance Valor_desc_total : Total Valor_desc.
Proof.
  intros x y. unfold Valor_desc.
  destruct (Qlt_le_dec (Valor x) (Valor y)) as [?%Qlt_le_weak | ?]; auto.
Qed.

(** ** The summary by category *)

Section Partition.

Context {A K : Type} `{EqDecision K} (key : A → K).





End Partition.



(** ** What the exports return *)

Lemma excel_export_tag (x : excel_outcome) (df : DataFrame) :
  ∃ p tag n,
    create_excel_export x df = (Return (p, tag), [n])
    ∧ (tag = "xlsx" → empty df = false)
    ∧ (tag = "xlsx" ∨ tag = "csv").
Proof.
  unfold create_excel_export. destruct (empty df) eqn:He.
  - eexists _, _, _. split; [reflexivity |]. split; [done | by right].
  - destruct x; (eexists _, _, _; split; [reflexivity |]; split; [done |]);
      [by left | by right | by right].
Qed.

(** X11: [create_excel_export] returns on every model and whatever the
    spreadsheet writer does, with one notification.  The tag is xlsx, with a
    workbook of one sheet, exactly when the model has rows and the writer
    worked; otherwise the tag is csv, with the table of the model as CSV, or
    the header line alone when the model has no rows. *)
Theorem create_excel_export_returns (x : excel_outcome) (df : DataFrame) :
  ∃ p tag n,
    create_excel_export x df = (Return (p, tag), [n])
    ∧ (tag = "xlsx" ↔ empty df = false ∧ x = Written)
    ∧ (tag = "xlsx" ∨ tag = "csv")
    ∧ match p with
      | Xlsx sheets =>
          tag = "xlsx"
          ∧ sheets = [("Transações", frame_sheet (columns df) (records df))]
      | CsvUtf8Sig t =>
          tag = "csv" ∧ empty df = false
          ∧ t = frame_sheet (columns df) (records df)
      | Bytes b =>
          tag = "csv" ∧ empty df = true
          ∧ b = ("Data,Categoria,Tipo,Valor,Descricao" ++ nl)%string
      | TxtUtf8Sig _ => False
      end.
Proof.
  unfold create_excel_export. destruct (empty df) eqn:He.
  - eexists _, _, _. split; [reflexivity |].
    split; [split; [done | by intros [? _]] |]. split; [by right | done].
  - destruct x as [| | e]; (eexists _, _, _; split; [reflexivity |]).
    + split; [done |]. split; [by left | done].
    + split; [split; [done | by intros [_ ?]] |]. split; [by right | done].
    + split; [split; [done | by intros [_ ?]] |]. split; [by right | done].
Qed.

(** ** The download buttons *)

(** ** Amounts in whole cents *)

Lemma whole_cents_Qsum (l : list Q) :
  Forall whole_cents l → whole_cents (Qsum l).
Proof.
  induction 1 as [| q l [z Hz] _ [s Hs]]; simpl.
  - exists 0%Z. reflexivity.
  - exists (z + s)%Z. rewrite Hz, Hs. unfold Qeq, Qplus. cbn [Qnum Qden].
    rewrite ?Pos2Z.inj_mul. lia.
Qed.

Lemma round_half_even_inject (q : Q) (z : Z) :
  (q == inject_Z z)%Q → round_half_even q = z.
Proof.
  intros Hq. unfold round_half_even.
  assert (Hf : Qfloor q = z) by (rewrite Hq; apply Qfloor_Z).
  rewrite Hf.
  assert (H0 : (q - inject_Z z == 0)%Q) by (rewrite Hq; ring).
  assert (Hc : (q - inject_Z z ?= 1 # 2)%Q = Lt) by (by rewrite H0).
  by rewrite Hc.
Qed.

Lemma round2_whole_cents (q : Q) : whole_cents q → (round2 q == q)%Q.
Proof.
  intros [z Hz]. unfold round2. rewrite Qred_correct.
  rewrite (round_half_even_inject (q * 100) z).
  - by rewrite Hz.
  - rewrite Hz. unfold Qeq, Qmult, inject_Z. cbn [Qnum Qden].
    rewrite ?Pos2Z.inj_mul. lia.
Qed.

(** X16: when every amount of the model is in whole cents, rounding changes
    nothing: each entry of the monthly breakdown is the sum of the amounts
    of its month and kind, and each total of the summary by category is the
    sum of the amounts of its kind and category. *)
Theorem rounding_exact_on_cents
    (to_datetime : list string → string → option Timestamp)
    (l : list transaction) :
  Forall (fun r => whole_cents (Valor r)) l →
  (∀ m k v,
     (m, k, v) ∈ resumo_mensal to_datetime l →
     (v == Qsum (Valor <$> filter
                   (fun r => period_M <$> to_datetime (Data <$> l) (Data r)
                             = Some m ∧ Tipo r = k) l))%Q)
  ∧ (∀ cols t c total mean n,
       [Text t; Text c; Number total; Number mean; Integer n]
       ∈ body (resumo_categoria cols l) →
       (total == Qsum (Valor <$> filter
                         (fun r => (Tipo r, Categoria r) = (t, c)) l))%Q).
Proof.
  intros Hc.
  assert (Hsub : ∀ P `{∀ r, Decision (P r)},
             whole_cents (Qsum (Valor <$> filter P l))).
  { intros P HP. apply whole_cents_Qsum. rewrite Forall_fmap.
    rewrite Forall_forall in Hc. apply Forall_forall.
    intros r [_ Hr]%list_elem_of_filter. by apply Hc. }
  split.
  - intros m k v Hin. unfold resumo_mensal in Hin.
    apply list_elem_of_fmap in Hin
      as ([[m' k'] g] & Heq & [_ ->]%elem_of_groupby).
    simpl in Heq. injection Heq as -> -> ->.
    rewrite with_month_group. apply round2_whole_cents, Hsub.
  - intros cols t c total mean n Hin. unfold resumo_categoria in Hin.
    simpl in Hin.
    apply list_elem_of_fmap in Hin
      as ([[t' c'] g] & Heq & [_ ->]%elem_of_groupby).
    simpl in Heq. injection Heq as -> -> -> _ _.
    apply round2_whole_cents, Hsub.
Qed.

Lemma rounding_exact_on_cents_witness :
  Forall (fun r => whole_cents (Valor r)) (records sample_model)
  ∧ ("2024-02", "Saída", 40%Q) ∈ resumo_mensal to_datetime_iso (records sample_model)
  ∧ (40 == Qsum (Valor <$> filter
                   (fun r => period_M <$> to_datetime_iso
                                            (Data <$> records sample_model)
                                            (Data r) = Some "2024-02"
                             ∧ Tipo r = "Saída") (records sample_model)))%Q.
Proof.
  assert (H : Forall (fun r => whole_cents (Valor r)) (records sample_model)).
  { repeat constructor.
    - exists 10000%Z. reflexivity.
    - exists 4000%Z. reflexivity.
    - exists 1250%Z. reflexivity. }
  assert (Hin : ("2024-02", "Saída", 40%Q)
                ∈ resumo_mensal to_datetime_iso (records sample_model)).
  { apply (list_elem_of_lookup_2 _ 1%nat). vm_compute. reflexivity. }
  split; [exact H |]. split; [exact Hin |].
  exact (proj1 (rounding_exact_on_cents to_datetime_iso (records sample_model) H)
           _ _ _ Hin).
Defined.

(** ** Keywords inside a message *)

Lemma lower_latin1_app_n (n : nat) (a b a' b' : string) :
  (String.length a ≤ n)%nat →
  lower_latin1 a = Some a' → lower_latin1 b = Some b' →
  lower_latin1 (a ++ b)%string = Some (a' ++ b')%string.
Proof.
  revert a a'. induction n as [| n IH]; intros a a' Hn Ha Hb.
  - destruct a; [| simpl in Hn; lia]. by injection Ha as <-.
  - destruct a as [| c s]; [by injection Ha as <- |].
    rewrite app_cons. simpl in Ha |- *.
    destruct (bool_decide (code c < 128)%nat).
    + destruct (lower_latin1 s) as [t |] eqn:Hs; [| discriminate].
      injection Ha as <-.
      rewrite (IH s t) by (simpl in Hn; lia || done). done.
    + destruct s as [| d s']; [discriminate |].
      rewrite app_cons.
      destruct (bool_decide (128 ≤ code d < 192)%nat); [| discriminate].
      destruct (bool_decide (code c = 194)%nat).
      * destruct (lower_latin1 s') as [t |] eqn:Hs; [| discriminate].
        injection Ha as <-.
        rewrite (IH s' t) by (simpl in Hn; lia || done). done.
      * destruct (bool_decide (code c = 195)%nat); [| discriminate].
        destruct (lower_latin1 s') as [t |] eqn:Hs; [| discriminate].
        injection Ha as <-.
        rewrite (IH s' t) by (simpl in Hn; lia || done). done.
Qed.

Lemma lower_latin1_app (a b a' b' : string) :
  lower_latin1 a = Some a' → lower_latin1 b = Some b' →
  lower_latin1 (a ++ b)%string = Some (a' ++ b')%string.
Proof. by apply (lower_latin1_app_n (String.length a)). Qed.

(** X17: a message of Latin-1 characters is an export request as soon as it
    contains a keyword in any mix of upper and lower case, wherever it
    stands in the message. *)
Theorem keyword_in_any_case (unicode_lower : string → string)
    (pre word post pre' k post' : string) :
  k ∈ ["planilha"; "excel"; "exportar"; "download"; "baixar";
       "orçamento"; "relatório"; "análise detalhada"; "spreadsheet"] →
  lower_latin1 pre = Some pre' →
  lower_latin1 word = Some k →
  lower_latin1 post = Some post' →
  parse_ai_request_for_export unicode_lower (pre ++ word ++ post)%string = true.
Proof.
  intros Hk Hpre Hword Hpost.
  unfold parse_ai_request_for_export, lower.
  rewrite (lower_latin1_app pre (word ++ post) pre' (k ++ post')%string Hpre)
    by by apply lower_latin1_app.
  apply existsb_exists. exists k. split; [by apply list_elem_of_In |].
  apply contains_spec. by exists pre', post'.
Qed.

Lemma keyword_in_any_case_witness :
  "relatório" ∈ ["planilha"; "excel"; "exportar"; "download"; "baixar";
                 "orçamento"; "relatório"; "análise detalhada"; "spreadsheet"]
  ∧ lower_latin1 "Quero um " = Some "quero um "
  ∧ lower_latin1 "RELATÓRIO" = Some "relatório"
  ∧ lower_latin1 " de Março!" = Some " de março!"
  ∧ parse_ai_request_for_export (fun s => s) "Quero um RELATÓRIO de Março!"
    = true.
Proof.
  assert (H1 : "relatório" ∈ ["planilha"; "excel"; "exportar"; "download";
                               "baixar"; "orçamento"; "relatório";
                               "análise detalhada"; "spreadsheet"]).
  { rewrite !elem_of_cons. tauto. }
  assert (H2 : lower_latin1 "Quero um " = Some "quero um ") by reflexivity.
  assert (H3 : lower_latin1 "RELATÓRIO" = Some "relatório") by reflexivity.
  assert (H4 : lower_latin1 " de Março!" = Some " de março!") by reflexivity.
  split; [exact H1 |]. split; [exact H2 |]. split; [exact H3 |].
  split; [exact H4 |].
  exact (keyword_in_any_case (fun s => s) _ _ _ _ _ _ H1 H2 H3 H4).
Defined.

Lemma ids_never_reused_witness :
  let first := SidebarSubmit Returns "2024-03-01 09:00:00" "Salário" "Entrada"
                 100 "mensal" in
  let second := SidebarSubmit Returns "2024-03-02 09:00:00" "Lazer" "Saída"
                  40 "cinema" in
  let r := DbRow 1 "2024-03-01 09:00:00" "Salário" "Entrada" 100 "mensal" in
  let s1 := run [first] (startup Returns initial_world) in
  let s2 := run [second] s1 in
  r ∈ table s1 ∧ r ∈ table s2 ∧ id <$> table s2 = [1%Z; 2%Z] ∧ r = r.
Proof.
  intros first second r s1 s2.
  assert (H1 : r ∈ table s1) by (apply elem_of_cons; by left).
  assert (H2 : r ∈ table s2) by (apply elem_of_cons; by left).
  split; [exact H1 |]. split; [exact H2 |]. split; [reflexivity |].
  exact (proj2 (ids_never_reused Returns [first] [second]) r r H1 H2 eq_refl).
Defined.

(** ** The budget export by dtype *)

Section BudgetTypedFacts.

Context (to_datetime : list string → string → option Timestamp).






End BudgetTypedFacts.
(** ** The monthly breakdown *)

Section MonthlyTyped.

Context (to_datetime : list string → string → option Timestamp).


End MonthlyTyped.



(** ** The summary's top three *)

Lemma StronglySorted_unique_on {A : Type} (R : relation A) (l1 l2 : list A) :
  (∀ x y, x ∈ l1 → y ∈ l1 → R x y → R y x → x = y) →
  StronglySorted R l1 → StronglySorted R l2 → l1 ≡ₚ l2 → l1 = l2.
Proof.
  revert l2. induction l1 as [| x l1 IH]; intros l2 Hanti H1 H2 Hp.
  - by apply Permutation_nil in Hp.
  - destruct l2 as [| y l2].
    { symmetry in Hp. by apply Permutation_nil in Hp. }
    apply StronglySorted_inv in H1 as [H1 Hx].
    apply StronglySorted_inv in H2 as [H2 Hy].
    assert (Hxy : x = y).
    { assert (Hin1 : x ∈ y :: l2) by (rewrite <- Hp; left).
      assert (Hin2 : y ∈ x :: l1) by (rewrite Hp; left).
      apply elem_of_cons in Hin1 as [-> | Hin1]; [done |].
      apply elem_of_cons in Hin2 as [-> | Hin2]; [done |].
      apply Hanti; [left | by right | |].
      - rewrite Forall_forall in Hx. by apply Hx.
      - rewrite Forall_forall in Hy. by apply Hy. }
    subst y. f_equal. apply Permutation_cons_inv in Hp.
    apply IH; [| done ..].
    intros a b Ha Hb. apply Hanti; by right.
Qed.

Lemma summary_loop (k : nat) (s : string) (l : list (string * Q)) :
  foldl (fun summary '(i, (cat, val)) =>
           (summary ++ pretty i ++ ". " ++ cat ++ ": R$ "
            ++ format_f true 2 val ++ nl)%string)
        s (imap (fun i cv => ((k + i)%nat, cv)) l)
  = (s ++ summary_lines k l)%string.
Proof.
  revert k s. induction l as [| [cat val] l IH]; intros k s.
  - simpl. induction s as [| c s IHs]; [done |]. rewrite app_cons. by f_equal.
  - rewrite imap_cons. cbn [foldl summary_lines].
    rewrite (imap_ext _ (fun i cv => ((S k + i)%nat, cv))).
    2:{ intros i x _. simpl. f_equal. lia. }
    rewrite IH. rewrite Nat.add_0_r. unfold summary_line. simpl fst. simpl snd.
    rewrite !str_app_assoc. reflexivity.
Qed.

Lemma gastos_categoria_ranks (df : DataFrame) :
  ranks_gastos df (gastos_categoria df).
Proof.
  unfold ranks_gastos.
  set (saidas := of_tipo "Saída" (records df)).
  assert (Hp : gastos_categoria df
               ≡ₚ (fun gr : string * list transaction =>
                     (gr.1, Qsum (Valor <$> gr.2)))
                  <$> groupby String.le Categoria saidas).
  { apply merge_sort_Permutation. }
  split; [| split].
  - rewrite Hp, <- list_fmap_compose.
    exact (NoDup_groupby String.le Categoria saidas).
  - intros c v. rewrite Hp, list_elem_of_fmap. split.
    + intros ([c' gr] & Heq & [Hc ->]%elem_of_groupby).
      simpl in Heq. by injection Heq as -> ->.
    + intros [Hc ->]. exists (c, filter (fun r => Categoria r = c) saidas).
      split; [done |]. by apply elem_of_groupby.
  - apply (StronglySorted_merge_sort value_desc).
Qed.

Lemma ranks_gastos_unique (df : DataFrame) (r1 r2 : list (string * Q)) :
  ranks_gastos df r1 → ranks_gastos df r2 → no_ties r1 → r1 = r2.
Proof.
  intros (Hn1 & Hm1 & Hs1) (Hn2 & Hm2 & Hs2) Hties.
  apply (StronglySorted_unique_on value_desc); [| done | done |].
  - intros [c1 v1] [c2 v2] Hx Hy Hxy Hyx. unfold value_desc in *. simpl in *.
    assert (Hc : c1 = c2).
    { apply (Hties c1 v1 c2 v2 Hx Hy). by apply Qle_antisym. }
    subst c2. apply Hm1 in Hx as [_ ->]. apply Hm1 in Hy as [_ ->]. done.
  - apply NoDup_Permutation.
    + by apply NoDup_fmap_1 in Hn1.
    + by apply NoDup_fmap_1 in Hn2.
    + intros [c v]. by rewrite Hm1, Hm2.
Qed.

(** X8: the summary ends with one line for each of the first three
    entries, or for all if there are fewer, of a ranking of the expense
    categories: each category of an expense once, with the total spent in
    it, larger totals first.  When no two categories have the same total
    there is one such ranking, however the sort orders equal totals. *)
Theorem summary_top_three (df : DataFrame) :
  empty df = false →
  (∃ ranking,
     ranks_gastos df ranking
     ∧ get_financial_summary df
       = (summary_head df ++ summary_lines 1 (take 3 ranking))%string)
  ∧ (∀ ranking,
       ranks_gastos df ranking → no_ties ranking →
       get_financial_summary df
       = (summary_head df ++ summary_lines 1 (take 3 ranking))%string).
Proof.
  intros He.
  assert (Hs : get_financial_summary df
               = (summary_head df
                  ++ summary_lines 1 (take 3 (gastos_categoria df)))%string).
  { unfold get_financial_summary. rewrite He.
    exact (summary_loop 1 (summary_head df) (take 3 (gastos_categoria df))). }
  split.
  - exists (gastos_categoria df). split; [apply gastos_categoria_ranks | done].
  - intros ranking Hr Hties. rewrite Hs. do 3 f_equal. symmetry.
    by apply (ranks_gastos_unique df); [| apply gastos_categoria_ranks |].
Qed.

Lemma summary_top_three_witness :
  empty sample_model = false
  ∧ no_ties (gastos_categoria sample_model)
  ∧ gastos_categoria sample_model = [("Lazer", 40%Q); ("Moradia", 12.5%Q)]
  ∧ get_financial_summary sample_model
    = (summary_head sample_model
       ++ summary_lines 1 [("Lazer", 40%Q); ("Moradia", 12.5%Q)])%string.
Proof.
  assert (Hg : gastos_categoria sample_model
               = [("Lazer", 40%Q); ("Moradia", 12.5%Q)]) by reflexivity.
  assert (Ht : no_ties (gastos_categoria sample_model)).
  { rewrite Hg. intros c1 v1 c2 v2 H1 H2 Hv.
    rewrite !elem_of_cons, elem_of_nil in H1, H2.
    destruct H1 as [[= -> ->] | [[= -> ->] | []]];
      destruct H2 as [[= -> ->] | [[= -> ->] | []]]; try done;
      exfalso; revert Hv; unfold Qeq; simpl; lia. }
  split; [reflexivity |]. split; [exact Ht |]. split; [exact Hg |].
  rewrite <- Hg at 1.
  exact (proj2 (summary_top_three sample_model eq_refl)
           (gastos_categoria sample_model)
           (gastos_categoria_ranks sample_model) Ht).
Defined.

(** ** The largest expenses *)










(** ** The summary by category *)



(** ** What the budget export returns *)

